(** * BakeryManagementSystem: a shallow embedding and its properties

    The development follows [BakeryManagementsystem.py].  The class keeps a
    pandas table of orders in memory, a counter for the next order id, and
    writes the whole table to a CSV file after every successful change.

    Modelling decisions, fixed once for the whole file:
    - a DataFrame is the list of its rows, in positional order.  Row labels
      are unique and increasing in every table the class builds (a fresh
      range after [read_csv] and [concat(..., ignore_index=True)], a subset
      of it after [drop]), so a label stands for a position;
    - a text is a [string] whose characters are code points below 256: an
      [ascii] holds the code point, not a byte of an encoding.  What Python
      does with a character is given for each of these 256 (the digits of
      [str.isdigit], the letters that [re.IGNORECASE] folds); texts with
      other characters have no value here;
    - the value of the "Order ID" column and of the counter is an integer or
      pandas' NaN (what [max()] of an empty column gives); a quantity is an
      integer.  pandas keeps the integers it reads from a file in 64 bits:
      the properties that add quantities up, set one, or go through a file
      are stated for numbers that fit ([int64]);
    - a file is known by its name (two names are two files), and a CSV file
      is represented by the table that was written to it.  [read_csv] gives that table back when
      its texts are read as they were written, which pandas does not do for
      every text (it reads "NA", the empty text and the like as a missing
      value, and a column of numerals as numbers): the properties that
      depend on what is read from a file are stated for tables of texts
      that are read as written ([csv_text]);
    - the log file is the list of the actions appended to it (the time stamp
      of each line is left out) and is kept apart from the CSV files: a
      store whose own file is the log file, and an export onto it, are not
      represented.  The console is the list of what was printed;
    - a call ends by running to its last statement, by an early [return],
      or by an exception that nothing catches ([flow]); the only exception
      that arises in the part embedded is the [ValueError] of [int]. *)

From Stdlib Require Import String Ascii ZArith List Lia Bool Arith DecimalString.
Import ListNotations.
Open Scope string_scope.
Open Scope Z_scope.

(** ** Text *)

Module Text.

Definition in_range (lo hi c : ascii) : bool :=
  (Ascii.leb lo c && Ascii.leb c hi)%bool.

(** A decimal digit, "0" to "9": what [\d] matches, what [str.isdecimal]
    accepts and what [int] reads, among the characters below 256. *)
Definition is_digit (c : ascii) : bool := in_range "0" "9" c.

Definition digit_val (c : ascii) : Z := Z.of_N (N_of_ascii c) - 48.

Fixpoint all_digits (s : string) : bool :=
  match s with
  | EmptyString => true
  | String c s' => is_digit c && all_digits s'
  end.

(** A text of decimal digits, one at least. *)
Definition numeral (s : string) : bool :=
  match s with
  | EmptyString => false
  | _ => all_digits s
  end.

(** The superscripts two, three and one (code points 178, 179 and 185):
    digits for [str.isdigit], which [int] does not read. *)
Definition is_superscript (c : ascii) : bool :=
  existsb (Ascii.eqb c) ["178"; "179"; "185"]%char.

Fixpoint all_isdigit (s : string) : bool :=
  match s with
  | EmptyString => true
  | String c s' => (is_digit c || is_superscript c) && all_isdigit s'
  end.

(** [str.isdigit()]: at least one character, and each of them a digit for
    Unicode: a decimal digit or a superscript, among those below 256. *)
Definition isdigit (s : string) : bool :=
  match s with
  | EmptyString => false
  | _ => all_isdigit s
  end.

Fixpoint int_acc (acc : Z) (s : string) : Z :=
  match s with
  | EmptyString => acc
  | String c s' => int_acc (10 * acc + digit_val c) s'
  end.

Fixpoint lstrip (s : string) : string :=
  match s with
  | String " " s' => lstrip s'
  | _ => s
  end.

(** [int(s)] on the texts the class passes to it: a text that [isdigit]
    accepts, or a group of [strptime], which is a numeral with, for the
    day, a blank before it.  [int] reads the decimal digits only; [None]
    stands for its [ValueError]. *)
Definition py_int (s : string) : option Z :=
  let t := lstrip s in
  if numeral t then Some (int_acc 0 t) else None.

(** The capital letters below 256: "A" to "Z" and the accented capitals,
    code points 192 to 222 without the multiplication sign (215); the small
    letter of each is 32 further.  This is the folding of [re.IGNORECASE]
    on these characters. *)
Definition is_capital (c : ascii) : bool :=
  in_range "A" "Z" c
  || (in_range "192" "222" c && negb (Ascii.eqb c "215")).

Definition is_small (c : ascii) : bool :=
  in_range "a" "z" c
  || (in_range "224" "254" c && negb (Ascii.eqb c "247")).

Definition lower (c : ascii) : ascii :=
  if is_capital c then ascii_of_N (N_of_ascii c + 32) else c.

(** The capital of a small letter that has one below 256. *)
Definition upper (c : ascii) : ascii :=
  if is_small c then ascii_of_N (N_of_ascii c - 32) else c.

Fixpoint lower_str (s : string) : string :=
  match s with
  | EmptyString => EmptyString
  | String c s' => String (lower c) (lower_str s')
  end.

(** [str(n)] for an integer. *)
Definition str_of_Z (z : Z) : string := NilZero.string_of_int (Z.to_int z).

(** How an f-string shows an optional argument. *)
Definition str_of_opt (o : option string) : string :=
  match o with
  | Some s => s
  | None => "None"
  end.

End Text.
Import Text.

(** ** Regular expressions

    [datetime.strptime] and [Series.str.contains] both go through Python's
    [re]: a backtracking matcher that tries alternatives from left to right.
    The matcher below lists every way a pattern can match a prefix of the
    text, in the order [re] would try them; each entry is the matched text
    with what is left of the input. *)

Module Re.

Inductive re : Type :=
| Eps
| Chr (c : ascii)
| Cls (lo hi : ascii)
| Dot
| Cat (r1 r2 : re)
| Alt (r1 r2 : re).

(** A character of the pattern against a character of the text.  With
    [IGNORECASE] the two match when their small letters are the same. *)
Definition chr_ok (icase : bool) (c x : ascii) : bool :=
  if icase then Ascii.eqb (lower c) (lower x) else Ascii.eqb c x.

(** A range of characters against a character of the text.  With
    [IGNORECASE] the character matches when it, its small letter or its
    capital is in the range. *)
Definition cls_ok (icase : bool) (lo hi x : ascii) : bool :=
  if icase
  then in_range lo hi x || in_range lo hi (lower x) || in_range lo hi (upper x)
  else in_range lo hi x.

Definition newline : ascii := ascii_of_N 10.

Definition dot_ok (x : ascii) : bool := negb (Ascii.eqb x newline).

Definition one (ok : ascii -> bool) (s : string) : list (string * string) :=
  match s with
  | String x s' => if ok x then [(String x EmptyString, s')] else []
  | EmptyString => []
  end.

Fixpoint rmatch (icase : bool) (r : re) (s : string) : list (string * string) :=
  match r with
  | Eps => [(EmptyString, s)]
  | Chr c => one (chr_ok icase c) s
  | Cls lo hi => one (cls_ok icase lo hi) s
  | Dot => one dot_ok s
  | Cat r1 r2 =>
      flat_map (fun '(u, s1) =>
                  map (fun '(v, s2) => (u ++ v, s2)) (rmatch icase r2 s1))
               (rmatch icase r1 s)
  | Alt r1 r2 => rmatch icase r1 s ++ rmatch icase r2 s
  end.

(** [regex.match(s) is not None] *)
Definition matches_at (icase : bool) (r : re) (s : string) : bool :=
  match rmatch icase r s with
  | [] => false
  | _ :: _ => true
  end.

(** [regex.search(s) is not None]: a match at some position of [s]. *)
Fixpoint search (icase : bool) (r : re) (s : string) : bool :=
  matches_at icase r s ||
  match s with
  | EmptyString => false
  | String _ s' => search icase r s'
  end.

(** The characters that [re] gives a meaning of their own. *)
Definition is_meta (c : ascii) : bool :=
  existsb (Ascii.eqb c)
    ["."; "^"; "$"; "*"; "+"; "?"; "{"; "}"; "["; "]"; "\"; "|"; "("; ")"]%char.

(** Compilation of a pattern, for the part of the syntax embedded here:
    ordinary characters and the dot.  [None]: the pattern has another of
    the characters that [re] gives a meaning to, and what [re] does with it
    (a match by that operator, or [re.error] for a pattern that is not well
    formed) is not represented. *)
Fixpoint compile (p : string) : option re :=
  match p with
  | EmptyString => Some Eps
  | String c p' =>
      match compile p' with
      | None => None
      | Some r =>
          if Ascii.eqb c "." then Some (Cat Dot r)
          else if is_meta c then None
          else Some (Cat (Chr c) r)
      end
  end.

End Re.

(** ** [datetime.strptime(text, "%Y-%m-%d")]

    [_strptime] turns the format into the regular expression
    [(?P<Y>\d\d\d\d)-(?P<m>1[0-2]|0[1-9]|[1-9])-(?P<d>3[0-1]|[1-2]\d|0[1-9]|[1-9]| [1-9])],
    compiled with [IGNORECASE]; takes the first match at the start of the
    text; fails when text remains after it; converts the three groups with
    [int]; and builds the date, which fails for a day the month does not
    have or for the year 0. *)

Module Strptime.
Import Re.

(** [\d]: a decimal digit, which is "0" to "9" among the characters below
    256. *)
Definition digit : re := Cls "0" "9".
Definition dash : re := Chr "-".

Definition re_Y : re := Cat digit (Cat digit (Cat digit digit)).

Definition re_m : re :=
  Alt (Cat (Chr "1") (Cls "0" "2"))
 (Alt (Cat (Chr "0") (Cls "1" "9"))
      (Cls "1" "9")).

Definition re_d : re :=
  Alt (Cat (Chr "3") (Cls "0" "1"))
 (Alt (Cat (Cls "1" "2") digit)
 (Alt (Cat (Chr "0") (Cls "1" "9"))
 (Alt (Cls "1" "9")
      (Cat (Chr " ") (Cls "1" "9"))))).

(** The month, the day and the rest, for every way the text after the year
    can match [-(?P<m>...)-(?P<d>...)]. *)
Definition paths_md (s1 : string) : list (string * string * string) :=
  flat_map (fun '(_, s2) =>
  flat_map (fun '(M, s3) =>
  flat_map (fun '(_, s4) =>
  map (fun '(D, s5) => (M, D, s5)) (rmatch true re_d s4))
    (rmatch true dash s3))
    (rmatch true re_m s2))
    (rmatch true dash s1).

(** The three groups and the rest, for every way the text can match. *)
Definition paths (s : string) : list (string * string * string * string) :=
  flat_map (fun '(Y, s1) =>
              map (fun '(M, D, s5) => (Y, M, D, s5)) (paths_md s1))
           (rmatch true re_Y s).

Definition is_leap (y : Z) : bool :=
  (y mod 4 =? 0) && (negb (y mod 100 =? 0) || (y mod 400 =? 0)).

Definition days_in_month (y m : Z) : Z :=
  if (m =? 2) && is_leap y then 29
  else nth (Z.to_nat m) [0; 31; 28; 31; 30; 31; 30; 31; 31; 30; 31; 30; 31] 0.

(** [datetime.date(y, m, d)] does not raise. *)
Definition date_ok (y m d : Z) : bool :=
  (1 <=? y) && (y <=? 9999) && (1 <=? m) && (m <=? 12) &&
  (1 <=? d) && (d <=? days_in_month y m).

Definition strptime_Ymd (s : string) : option (Z * Z * Z) :=
  match paths s with
  | [] => None
  | (Y, M, D, rest) :: _ =>
      match rest with
      | String _ _ => None
      | EmptyString =>
          match py_int Y, py_int M, py_int D with
          | Some y, Some m, Some d =>
              if date_ok y m d then Some (y, m, d) else None
          | _, _, _ => None
          end
      end
  end.

End Strptime.

(** ** Data model *)

(** A value of the "Order ID" column, and of the counter. *)
Inductive pynum : Type :=
| Int (z : Z)
| NaN.

Definition num_succ (n : pynum) : pynum :=
  match n with
  | Int z => Int (z + 1)
  | NaN => NaN
  end.

(** [column == order_id], row by row: NaN equals nothing. *)
Definition num_eqb (n : pynum) (z : Z) : bool :=
  match n with
  | Int x => x =? z
  | NaN => false
  end.

Definition str_of_num (n : pynum) : string :=
  match n with
  | Int z => str_of_Z z
  | NaN => "nan"
  end.

(** [Series.max()]: NaN is skipped; NaN when nothing is left. *)
Fixpoint series_max (l : list pynum) : pynum :=
  match l with
  | [] => NaN
  | NaN :: l' => series_max l'
  | Int z :: l' =>
      match series_max l' with
      | Int m => Int (Z.max z m)
      | NaN => Int z
      end
  end.

Record Order : Type := mkOrder {
  OrderID : pynum;
  CustomerName : string;
  OrderText : string;
  Quantity : Z;
  OrderDate : string
}.

Definition table : Type := list Order.

Definition ids (t : table) : list pynum := map OrderID t.

(** What the console shows. *)
Inductive output : Type :=
| Line (s : string)
| Frame (t : table).

Definition files : Type := string -> option table.

Definition no_files : files := fun _ => None.

Definition write_file (name : string) (t : table) (f : files) : files :=
  fun n => if String.eqb n name then Some t else f n.

Record Bakery : Type := mkBakery {
  filename : string;
  orders : table;
  next_order_id : pynum;
  fs : files;
  log : list string;
  console : list output
}.

Definition log_filename : string := "bakery_log.txt".
Definition backup_filename : string := "bakery_orders_backup.csv".

Definition with_orders (t : table) (s : Bakery) : Bakery :=
  mkBakery (filename s) t (next_order_id s) (fs s) (log s) (console s).

Definition with_next (n : pynum) (s : Bakery) : Bakery :=
  mkBakery (filename s) (orders s) n (fs s) (log s) (console s).

Definition print (o : output) (s : Bakery) : Bakery :=
  mkBakery (filename s) (orders s) (next_order_id s) (fs s) (log s)
           (console s ++ [o]).

Definition to_csv (name : string) (s : Bakery) : Bakery :=
  mkBakery (filename s) (orders s) (next_order_id s)
           (write_file name (orders s) (fs s)) (log s) (console s).

(** ** Operations *)

(** [__init__]: the table is the one the file holds, when there is a file
    (see the modelling decisions for what [read_csv] is taken to do). *)
Definition init (name : string) (f : files) (lg : list string)
           (out : list output) : Bakery :=
  match f name with
  | Some t =>
      mkBakery name t
               (match t with
                | _ :: _ => num_succ (series_max (ids t))
                | [] => Int 1
                end)
               f lg out
  | None => mkBakery name [] (Int 1) f lg out
  end.

Definition save_orders (s : Bakery) : Bakery := to_csv (filename s) s.

Definition validate_date (date_str : string) : bool :=
  match Strptime.strptime_Ymd date_str with
  | Some _ => true
  | None => false
  end.

(** [quantity.isdigit() and int(quantity) > 0].  [None]: [int] raises
    [ValueError], which it does for a text that [isdigit] accepts and that
    has a superscript in it; nothing catches it. *)
Definition validate_quantity (quantity : string) : option bool :=
  if isdigit quantity
  then match py_int quantity with
       | Some n => Some (0 <? n)
       | None => None
       end
  else Some false.

Definition log_action (action : string) (s : Bakery) : Bakery :=
  mkBakery (filename s) (orders s) (next_order_id s) (fs s)
           (log s ++ [action]) (console s).

Definition send_notification (message : string) (s : Bakery) : Bakery :=
  print (Line ("Notification: " ++ message)) s.

Definition msg_invalid_quantity : string :=
  "Invalid quantity. Please enter a positive integer.".
Definition msg_invalid_date : string :=
  "Invalid date format. Please enter the date in YYYY-MM-DD format.".
Definition msg_not_found (order_id : Z) : string :=
  "Order ID " ++ str_of_Z order_id ++ " not found.".

(** A method body goes on to its next statement, returns early, or is left
    by an exception (the [ValueError] of [int]); each with the state of the
    store at that point. *)
Inductive flow : Type :=
| Next (s : Bakery)
| Return (s : Bakery)
| Raise (s : Bakery).

Definition and_then (x : flow) (k : Bakery -> flow) : flow :=
  match x with
  | Next s => k s
  | Return s => Return s
  | Raise s => Raise s
  end.

(** The store when the call has ended, whichever way. *)
Definition finish (x : flow) : Bakery :=
  match x with
  | Next s => s
  | Return s => s
  | Raise s => s
  end.

(** The call was left by an exception. *)
Definition raises (x : flow) : bool :=
  match x with
  | Raise _ => true
  | _ => false
  end.

Notation "s <- x ;; k" := (and_then x (fun s => k))
  (at level 61, x at next level, right associativity).

Definition add_order_call (name order quantity order_date : string)
           (s : Bakery) : flow :=
  match validate_quantity quantity with
  | None => Raise s
  | Some false => Return (print (Line msg_invalid_quantity) s)
  | Some true =>
      if negb (validate_date order_date)
      then Return (print (Line msg_invalid_date) s)
      else
        match py_int quantity with
        | None => Raise s
        | Some q =>
            let new_order := mkOrder (next_order_id s) name order q order_date in
            let s := with_orders (orders s ++ [new_order])%list s in
            let s := save_orders s in
            let s := log_action ("Added order ID: " ++ str_of_num (next_order_id s)) s in
            let s := send_notification
                       ("New order added: " ++ name ++ ", " ++ order ++ ", "
                        ++ quantity ++ ", " ++ order_date) s in
            let s := print (Line ("Order added successfully with order ID: "
                                  ++ str_of_num (next_order_id s))) s in
            Next (with_next (num_succ (next_order_id s)) s)
        end
  end.

(** The store after [add_order], however the call ended. *)
Definition add_order (name order quantity order_date : string)
           (s : Bakery) : Bakery :=
  finish (add_order_call name order quantity order_date s).

(** [index[column == order_id].tolist()]: the positions of the matching rows. *)
Fixpoint find_rows_from (i : nat) (order_id : Z) (t : table) : list nat :=
  match t with
  | [] => []
  | o :: t' =>
      if num_eqb (OrderID o) order_id
      then i :: find_rows_from (S i) order_id t'
      else find_rows_from (S i) order_id t'
  end.

Definition find_rows (order_id : Z) (t : table) : list nat :=
  find_rows_from 0 order_id t.

(** [table.at[i, column] = value], for a row [i] of the table and a value
    that the column takes (a text, or an integer that fits 64 bits). *)
Fixpoint set_at (i : nat) (f : Order -> Order) (t : table) : table :=
  match t, i with
  | [], _ => []
  | o :: t', O => f o :: t'
  | o :: t', S i' => o :: set_at i' f t'
  end.

Definition set_name (v : string) (o : Order) : Order :=
  mkOrder (OrderID o) v (OrderText o) (Quantity o) (OrderDate o).
Definition set_text (v : string) (o : Order) : Order :=
  mkOrder (OrderID o) (CustomerName o) v (Quantity o) (OrderDate o).
Definition set_quantity (v : Z) (o : Order) : Order :=
  mkOrder (OrderID o) (CustomerName o) (OrderText o) v (OrderDate o).
Definition set_date (v : string) (o : Order) : Order :=
  mkOrder (OrderID o) (CustomerName o) (OrderText o) (Quantity o) v.

(** [table.drop(idx)]: the rows whose position is not in [idx]. *)
Fixpoint drop_from (i : nat) (idx : list nat) (t : table) : table :=
  match t with
  | [] => []
  | o :: t' =>
      if existsb (Nat.eqb i) idx
      then drop_from (S i) idx t'
      else o :: drop_from (S i) idx t'
  end.

Definition drop (idx : list nat) (t : table) : table := drop_from 0 idx t.

(** The value of an optional text argument when [if argument:] holds, that
    is when it is neither [None] nor the empty text. *)
Definition provided (o : option string) : option string :=
  match o with
  | Some (String _ _ as v) => Some v
  | _ => None
  end.

Definition update_order_call (order_id : Z)
           (name order quantity order_date : option string)
           (s : Bakery) : flow :=
  match find_rows order_id (orders s) with
  | [] => Next (print (Line (msg_not_found order_id)) s)
  | i :: _ =>
      s <- Next (match provided name with
                 | Some v => with_orders (set_at i (set_name v) (orders s)) s
                 | None => s
                 end) ;;
      s <- Next (match provided order with
                 | Some v => with_orders (set_at i (set_text v) (orders s)) s
                 | None => s
                 end) ;;
      s <- match provided quantity with
           | Some v =>
               match validate_quantity v with
               | None => Raise s
               | Some false => Return (print (Line msg_invalid_quantity) s)
               | Some true =>
                   match py_int v with
                   | Some q =>
                       Next (with_orders (set_at i (set_quantity q) (orders s)) s)
                   | None => Raise s
                   end
               end
           | None => Next s
           end ;;
      s <- match provided order_date with
           | Some v =>
               if negb (validate_date v)
               then Return (print (Line msg_invalid_date) s)
               else Next (with_orders (set_at i (set_date v) (orders s)) s)
           | None => Next s
           end ;;
      let s := save_orders s in
      let s := log_action ("Updated order ID: " ++ str_of_Z order_id) s in
      let s := send_notification
                 ("Order updated: " ++ str_of_Z order_id ++ ", "
                  ++ str_of_opt name ++ ", " ++ str_of_opt order ++ ", "
                  ++ str_of_opt quantity ++ ", " ++ str_of_opt order_date) s in
      Next (print (Line ("Order ID " ++ str_of_Z order_id
                         ++ " updated successfully.")) s)
  end.

(** The store after [update_order], however the call ended. *)
Definition update_order (order_id : Z)
           (name order quantity order_date : option string)
           (s : Bakery) : Bakery :=
  finish (update_order_call order_id name order quantity order_date s).

Definition delete_order (order_id : Z) (s : Bakery) : Bakery :=
  match find_rows order_id (orders s) with
  | [] => print (Line (msg_not_found order_id)) s
  | idx =>
      let s := with_orders (drop idx (orders s)) s in
      let s := save_orders s in
      let s := log_action ("Deleted order ID: " ++ str_of_Z order_id) s in
      let s := send_notification ("Order deleted: " ++ str_of_Z order_id) s in
      print (Line ("Order ID " ++ str_of_Z order_id ++ " deleted successfully.")) s
  end.

(** [table[column == order_id]] *)
Definition rows_with_id (order_id : Z) (t : table) : table :=
  filter (fun o => num_eqb (OrderID o) order_id) t.

Definition lookup_order (order_id : Z) (s : Bakery) : Bakery :=
  match rows_with_id order_id (orders s) with
  | [] => print (Line (msg_not_found order_id)) s
  | order => print (Frame order) s
  end.

(** [table[table["Customer Name"].str.contains(pat, case=False, na=False)]]:
    [contains] is a regular-expression search ([regex=True] is the default),
    here one that ignores case.  [None]: the pattern is outside the embedded
    part of the regular-expression syntax. *)
Definition filter_name (pat : string) (t : table) : option table :=
  match Re.compile pat with
  | Some r => Some (filter (fun o => Re.search true r (CustomerName o)) t)
  | None => None
  end.

(** The rows that [filter_orders] keeps. *)
Definition filter_rows (customer_name start_date end_date : option string)
           (t : table) : option table :=
  match (match provided customer_name with
         | Some v => filter_name v t
         | None => Some t
         end) with
  | None => None
  | Some t1 =>
      let t2 := match provided start_date with
                | Some v => filter (fun o => String.leb v (OrderDate o)) t1
                | None => t1
                end in
      let t3 := match provided end_date with
                | Some v => filter (fun o => String.leb (OrderDate o) v) t2
                | None => t2
                end in
      Some t3
  end.

Definition filter_orders (customer_name start_date end_date : option string)
           (s : Bakery) : option Bakery :=
  match filter_rows customer_name start_date end_date (orders s) with
  | None => None
  | Some [] => Some (print (Line "No orders found.") s)
  | Some filtered_orders => Some (print (Frame filtered_orders) s)
  end.

(** [name] is taken to be the name of a CSV file, not that of the log
    file. *)
Definition export_orders_to_csv (name : string) (s : Bakery) : Bakery :=
  let s := to_csv name s in
  let s := log_action ("Exported orders to " ++ name) s in
  print (Line ("All orders have been exported to " ++ name)) s.

Definition backup_orders (s : Bakery) : Bakery :=
  let s := to_csv backup_filename s in
  let s := log_action "Backup orders" s in
  print (Line ("Backup created successfully at " ++ backup_filename)) s.

(** The table restored is the one the backup file holds (see the modelling
    decisions for what [read_csv] is taken to do). *)
Definition restore_orders (s : Bakery) : Bakery :=
  match fs s backup_filename with
  | Some t =>
      let s := with_orders t s in
      let s := save_orders s in
      let s := with_next (num_succ (series_max (ids (orders s)))) s in
      let s := log_action "Restored orders from backup" s in
      print (Line "Orders restored successfully from backup.") s
  | None => print (Line "No backup file found.") s
  end.

(** [Series.mode()]: the values that occur most often, sorted. *)
Module Mode.

Definition occurrences (x : string) (l : list string) : nat :=
  length (filter (String.eqb x) l).

Definition top_count (l : list string) : nat :=
  fold_right (fun x m => Nat.max (occurrences x l) m) 0%nat l.

Fixpoint insert_sorted (x : string) (l : list string) : list string :=
  match l with
  | [] => [x]
  | y :: l' => if String.leb x y then x :: l else y :: insert_sorted x l'
  end.

Definition sort_strings (l : list string) : list string :=
  fold_right insert_sorted [] l.

Definition series_mode (l : list string) : list string :=
  sort_strings
    (nodup string_dec
       (filter (fun x => (occurrences x l =? top_count l)%nat) l)).

End Mode.

Definition total_orders (t : table) : Z := Z.of_nat (length t).

(** [table["Quantity"].sum()], for quantities that fit 64 bits together
    with their sum: beyond, what pandas adds up depends on how it keeps the
    column. *)
Definition total_quantity (t : table) : Z :=
  fold_right Z.add 0 (map Quantity t).

(** [table["Order"].mode()[0] if total_orders > 0 else "None"];
    [None] stands for the error of [[0]] on an empty result. *)
Definition most_popular_order (t : table) : option string :=
  if 0 <? total_orders t
  then hd_error (Mode.series_mode (map OrderText t))
  else Some "None".

Definition order_summary (s : Bakery) : Bakery :=
  let s := print (Line "Order Summary") s in
  let s := print (Line "-------------") s in
  match most_popular_order (orders s) with
  | None => s
  | Some most_popular =>
      let s := print (Line ("Total Orders: " ++ str_of_Z (total_orders (orders s)))) s in
      let s := print (Line ("Total Quantity: "
                            ++ str_of_Z (total_quantity (orders s)))) s in
      print (Line ("Most Popular Order: " ++ most_popular)) s
  end.

(** ** Sessions

    One choice of the menu, or the end of the process followed by a new
    start on the same files.  A session is what a caller does with the
    store, one call after the other; a call that an exception leaves has
    done what it did until then, and the caller goes on. *)
Inductive op : Type :=
| OpAdd (name order quantity order_date : string)
| OpUpdate (order_id : Z) (name order quantity order_date : option string)
| OpDelete (order_id : Z)
| OpLookup (order_id : Z)
| OpFilter (customer_name start_date end_date : option string)
| OpExport (name : string)
| OpBackup
| OpRestore
| OpSummary
| OpRestart.

Definition restart (s : Bakery) : Bakery :=
  init (filename s) (fs s) (log s) (console s).

Definition step (o : op) (s : Bakery) : Bakery :=
  match o with
  | OpAdd name order quantity order_date =>
      add_order name order quantity order_date s
  | OpUpdate order_id name order quantity order_date =>
      update_order order_id name order quantity order_date s
  | OpDelete order_id => delete_order order_id s
  | OpLookup order_id => lookup_order order_id s
  | OpFilter customer_name start_date end_date =>
      match filter_orders customer_name start_date end_date s with
      | Some s' => s'
      | None => s
      end
  | OpExport name => export_orders_to_csv name s
  | OpBackup => backup_orders s
  | OpRestore => restore_orders s
  | OpSummary => order_summary s
  | OpRestart => restart s
  end.

Definition run (l : list op) (s : Bakery) : Bakery :=
  fold_left (fun s o => step o s) l s.

(** The quantity check passes: it neither turns the text down nor
    raises. *)
Definition quantity_ok (quantity : string) : bool :=
  match validate_quantity quantity with
  | Some true => true
  | _ => false
  end.

(** The order id that a call of [add_order] gives out: the counter, when
    both checks pass. *)
Definition assigned_by (o : op) (s : Bakery) : list pynum :=
  match o with
  | OpAdd _ _ quantity order_date =>
      if quantity_ok quantity && validate_date order_date
      then [next_order_id s]
      else []
  | _ => []
  end.

(** The order ids given out along a session, oldest first. *)
Fixpoint assigned (l : list op) (s : Bakery) : list pynum :=
  match l with
  | [] => []
  | o :: l' => (assigned_by o s ++ assigned l' (step o s))%list
  end.

(** A session in which the counter is never recomputed. *)
Definition keeps_counter (o : op) : bool :=
  match o with
  | OpRestore | OpRestart => false
  | _ => true
  end.

Definition fresh (name : string) : Bakery := init name no_files [] [].

(** ** The menu

    [menu] reads what is typed line by line.  The lines typed are a list;
    [input(prompt)] shows the prompt, recorded on the console like a printed
    line, and takes the next line; when none is left it raises [EOFError],
    which nothing catches.  [int] on a typed line is a parameter, [to_int]:
    [None] is its [ValueError], which nothing catches either, no more than
    the one that leaves [add_order] or [update_order]. *)

Inductive ending : Type :=
| Returned
| EOFError
| ValueError
| Unknown.

Definition ask (prompt : string) (s : Bakery) : Bakery :=
  print (Line prompt) s.

(** [x or None] *)
Definition or_none (x : string) : option string :=
  match x with
  | EmptyString => None
  | String _ _ => Some x
  end.

Definition show_menu (s : Bakery) : Bakery :=
  let s := print (Line (String Re.newline "Bakery Management System")) s in
  let s := print (Line "1. Add Order") s in
  let s := print (Line "2. Update Order") s in
  let s := print (Line "3. Delete Order") s in
  let s := print (Line "4. Lookup Order") s in
  let s := print (Line "5. Filter Orders") s in
  let s := print (Line "6. Export Orders to CSV") s in
  let s := print (Line "7. Backup Orders") s in
  let s := print (Line "8. Restore Orders") s in
  let s := print (Line "9. Order Summary") s in
  print (Line "10. Exit") s.

(** The user name and the password are read from the lines typed; [None]
    as the answer: the lines ran out. *)
Definition authenticate_user (inputs : list string) (s : Bakery)
  : Bakery * list string * option bool :=
  let s := ask "Enter username: " s in
  match inputs with
  | [] => (s, [], None)
  | username :: inputs =>
      let s := ask "Enter password: " s in
      match inputs with
      | [] => (s, [], None)
      | password :: inputs =>
          (s, inputs,
           Some (String.eqb username "admin"
                 && String.eqb password "password"))
      end
  end.

Section Menu.

Variable to_int : string -> option Z.

(** The [while True] loop of [menu].  [Unknown]: the name typed for a
    filter is outside the embedded part of the regular-expression syntax. *)
Fixpoint menu_loop (inputs : list string) (s : Bakery) : Bakery * ending :=
  let s := show_menu s in
  let s := ask "Enter your choice: " s in
  match inputs with
  | [] => (s, EOFError)
  | choice :: inputs =>
      if String.eqb choice "1" then
        let s := ask "Enter customer name: " s in
        match inputs with [] => (s, EOFError) | name :: inputs =>
        let s := ask "Enter order: " s in
        match inputs with [] => (s, EOFError) | order :: inputs =>
        let s := ask "Enter quantity: " s in
        match inputs with [] => (s, EOFError) | quantity :: inputs =>
        let s := ask "Enter order date (YYYY-MM-DD): " s in
        match inputs with [] => (s, EOFError) | order_date :: inputs =>
        if raises (add_order_call name order quantity order_date s)
        then (add_order name order quantity order_date s, ValueError)
        else menu_loop inputs (add_order name order quantity order_date s)
        end end end end
      else if String.eqb choice "2" then
        let s := ask "Enter order ID to update: " s in
        match inputs with [] => (s, EOFError) | line :: inputs =>
        match to_int line with None => (s, ValueError) | Some order_id =>
        let s := ask "Enter new customer name (leave blank to keep unchanged): " s in
        match inputs with [] => (s, EOFError) | name :: inputs =>
        let s := ask "Enter new order (leave blank to keep unchanged): " s in
        match inputs with [] => (s, EOFError) | order :: inputs =>
        let s := ask "Enter new quantity (leave blank to keep unchanged): " s in
        match inputs with [] => (s, EOFError) | quantity :: inputs =>
        let s := ask "Enter new order date (YYYY-MM-DD) (leave blank to keep unchanged): " s in
        match inputs with [] => (s, EOFError) | order_date :: inputs =>
        if raises (update_order_call order_id (or_none name) (or_none order)
                                     (or_none quantity) (or_none order_date) s)
        then (update_order order_id (or_none name) (or_none order)
                           (or_none quantity) (or_none order_date) s,
              ValueError)
        else menu_loop inputs
               (update_order order_id (or_none name) (or_none order)
                             (or_none quantity) (or_none order_date) s)
        end end end end end end
      else if String.eqb choice "3" then
        let s := ask "Enter order ID to delete: " s in
        match inputs with [] => (s, EOFError) | line :: inputs =>
        match to_int line with None => (s, ValueError) | Some order_id =>
        menu_loop inputs (delete_order order_id s)
        end end
      else if String.eqb choice "4" then
        let s := ask "Enter order ID to lookup: " s in
        match inputs with [] => (s, EOFError) | line :: inputs =>
        match to_int line with None => (s, ValueError) | Some order_id =>
        menu_loop inputs (lookup_order order_id s)
        end end
      else if String.eqb choice "5" then
        let s := ask "Enter customer name to filter by (leave blank to ignore): " s in
        match inputs with [] => (s, EOFError) | customer_name :: inputs =>
        let s := ask "Enter start date (YYYY-MM-DD) to filter by (leave blank to ignore): " s in
        match inputs with [] => (s, EOFError) | start_date :: inputs =>
        let s := ask "Enter end date (YYYY-MM-DD) to filter by (leave blank to ignore): " s in
        match inputs with [] => (s, EOFError) | end_date :: inputs =>
        match filter_orders (or_none customer_name) (or_none start_date)
                            (or_none end_date) s with
        | None => (s, Unknown)
        | Some s => menu_loop inputs s
        end
        end end end
      else if String.eqb choice "6" then
        let s := ask "Enter filename to export to (e.g., orders.csv): " s in
        match inputs with [] => (s, EOFError) | name :: inputs =>
        menu_loop inputs (export_orders_to_csv name s)
        end
      else if String.eqb choice "7" then menu_loop inputs (backup_orders s)
      else if String.eqb choice "8" then menu_loop inputs (restore_orders s)
      else if String.eqb choice "9" then menu_loop inputs (order_summary s)
      else if String.eqb choice "10" then (s, Returned)
      else menu_loop inputs
             (print (Line "Invalid choice, please try again.") s)
  end.

Definition menu (inputs : list string) (s : Bakery) : Bakery * ending :=
  match authenticate_user inputs s with
  | (s, _, None) => (s, EOFError)
  | (s, _, Some false) =>
      (print (Line "Authentication failed. Exiting system.") s, Returned)
  | (s, inputs, Some true) => menu_loop inputs s
  end.

End Menu.

(** * Vocabulary of the specification *)

(** [decimal w n]: [w] is a non-empty string of digits that reads, in base
    ten, as [n]. *)
Inductive decimal : string -> Z -> Prop :=
| decimal_digit : forall c,
    is_digit c = true -> decimal (String c EmptyString) (digit_val c)
| decimal_snoc : forall w n c,
    decimal w n -> is_digit c = true ->
    decimal (w ++ String c EmptyString) (10 * n + digit_val c).

(** "a string of digit characters parsing to an integer strictly greater
    than 0" *)
Definition positive_numeral (w : string) : Prop :=
  exists n, decimal w n /\ 0 < n.

(** The row carries the given order id. *)
Definition has_id (order_id : Z) (o : Order) : bool :=
  num_eqb (OrderID o) order_id.

(** The given order id is in the table. *)
Definition present (order_id : Z) (t : table) : Prop :=
  exists o, In o t /\ OrderID o = Int order_id.

(** Every order id of the table is an integer below [n]. *)
Definition counter_above (n : Z) (t : table) : Prop :=
  forall o, In o t -> exists z, OrderID o = Int z /\ z < n.

(** Every order id of the table is an integer. *)
Definition integer_ids (t : table) : Prop :=
  forall o, In o t -> exists z, OrderID o = Int z.

(** [m] is the greatest order id of the table. *)
Definition greatest_id (m : Z) (t : table) : Prop :=
  In (Int m) (ids t) /\ forall z, In (Int z) (ids t) -> z <= m.

(** [n], [n+1], ..., [n+k-1]. *)
Definition consecutive (n : Z) (k : nat) : list pynum :=
  map (fun i => Int (n + Z.of_nat i)) (seq 0 k).



(** The state in which a successful [add_order] ends. *)
Definition added (name order quantity order_date : string) (s : Bakery)
  : Bakery :=
  let t := (orders s
            ++ [mkOrder (next_order_id s) name order (int_acc 0 quantity)
                        order_date])%list in
  mkBakery (filename s) t (num_succ (next_order_id s))
    (write_file (filename s) t (fs s))
    (log s ++ [("Added order ID: " ++ str_of_num (next_order_id s))%string])
    (console s
     ++ [Line ("Notification: New order added: " ++ name ++ ", " ++ order
               ++ ", " ++ quantity ++ ", " ++ order_date)%string;
         Line ("Order added successfully with order ID: "
               ++ str_of_num (next_order_id s))%string]).

(** "the tied value encountered first in the table's iteration order":
    the first text of the column that occurs as often as any. *)
Definition first_most_frequent (l : list string) : option string :=
  find (fun x => (Mode.occurrences x l =? Mode.top_count l)%nat) l.

(** [sub] occurs in [text], the case of letters aside. *)
Definition contains_nocase (sub text : string) : Prop :=
  exists u v w, text = u ++ v ++ w /\ lower_str v = lower_str sub.


(** The regular expression that matches a text character by character. *)
Fixpoint literal (p : string) : Re.re :=
  match p with
  | EmptyString => Re.Eps
  | String c p' => Re.Cat (Re.Chr c) (literal p')
  end.


(** The texts that a regular expression matches in full, case ignored. *)
Fixpoint lang (r : Re.re) (u : string) : Prop :=
  match r with
  | Re.Eps => u = EmptyString
  | Re.Chr c => exists x, u = String x EmptyString /\ Re.chr_ok true c x = true
  | Re.Cls lo hi =>
      exists x, u = String x EmptyString /\ Re.cls_ok true lo hi x = true
  | Re.Dot => exists x, u = String x EmptyString /\ Re.dot_ok x = true
  | Re.Cat r1 r2 => exists u1 u2, u = u1 ++ u2 /\ lang r1 u1 /\ lang r2 u2
  | Re.Alt r1 r2 => lang r1 u \/ lang r2 u
  end.

(** "the fixed-width pattern YYYY-MM-DD (four-digit year, two-digit month,
    two-digit day, dash-separated) denoting a real calendar date" *)
Definition iso_date_text (s : string) : Prop :=
  exists Y M D y m d,
    s = Y ++ "-" ++ M ++ "-" ++ D
    /\ String.length Y = 4%nat /\ decimal Y y
    /\ String.length M = 2%nat /\ decimal M m
    /\ String.length D = 2%nat /\ decimal D d
    /\ Strptime.date_ok y m d = true.

(** A day as [strptime] reads it: one or two digits, or a blank and one
    digit. *)
Definition day_text (D : string) (d : Z) : Prop :=
  ((String.length D <= 2)%nat /\ decimal D d)
  \/ (exists c, D = String " " (String c EmptyString)
                /\ decimal (String c EmptyString) d).

(** The dates that [strptime] reads with ["%Y-%m-%d"]: a year of four
    digits, a month of one or two digits, a day, with dashes in between,
    that make a real calendar date. *)
Definition strptime_date_text (s : string) : Prop :=
  exists Y M D y m d,
    s = Y ++ "-" ++ M ++ "-" ++ D
    /\ String.length Y = 4%nat /\ decimal Y y
    /\ (String.length M <= 2)%nat /\ decimal M m
    /\ day_text D d
    /\ Strptime.date_ok y m d = true.

(** Every text of one or two digits. *)
Definition digits10 : list ascii :=
  ["0"; "1"; "2"; "3"; "4"; "5"; "6"; "7"; "8"; "9"]%char.

Definition short_numerals : list string :=
  (map (fun c => String c EmptyString) digits10
   ++ flat_map (fun c1 => map (fun c2 => String c1 (String c2 EmptyString))
                              digits10) digits10)%list.

Definition between (lo hi : Z) (w : string) : bool :=
  (lo <=? int_acc 0 w) && (int_acc 0 w <=? hi).

Definition month_texts : list string := filter (between 1 12) short_numerals.

Definition day_texts : list string :=
  (filter (between 1 31) short_numerals
   ++ map (fun c => String " " (String c EmptyString))
          (filter (fun c => between 1 9 (String c EmptyString)) digits10))%list.

(** The first way to match the text after the year reads the month [M] and
    the day [D] and leaves nothing. *)
Definition first_path_is (M D : string) : bool :=
  match Strptime.paths_md ("-" ++ M ++ "-" ++ D) with
  | (M', D', EmptyString) :: _ => String.eqb M M' && String.eqb D D'
  | _ => false
  end.

(** The order ids of a table as the store keeps them: integers, pairwise
    distinct. *)
Definition sound_table (t : table) : Prop :=
  integer_ids t /\ NoDup (ids t).

(** The invariant of the store: the counter is an integer above every order
    id of the table, the order ids are pairwise distinct, and every file
    holds a table with such ids. *)
Definition sound (s : Bakery) : Prop :=
  (exists n, next_order_id s = Int n /\ counter_above n (orders s))
  /\ NoDup (ids (orders s))
  /\ (forall name t, fs s name = Some t -> sound_table t).

(** No restore of the session finds a backup that holds no order. *)
Fixpoint no_empty_restore (l : list op) (s : Bakery) : Prop :=
  match l with
  | [] => True
  | o :: l' =>
      (o = OpRestore -> fs s backup_filename <> Some [])
      /\ no_empty_restore l' (step o s)
  end.

(** Two states of the store that differ at most in what the console
    shows. *)
Definition same_store (s s' : Bakery) : Prop :=
  filename s = filename s'
  /\ orders s = orders s'
  /\ next_order_id s = next_order_id s'
  /\ fs s = fs s'
  /\ log s = log s'.

(** An order as the checks of [add_order] and [update_order] let it in. *)
Definition well_formed (o : Order) : Prop :=
  0 < Quantity o /\ validate_date (OrderDate o) = true.

(** Every order in memory and in the files is well formed. *)
Definition well_formed_store (s : Bakery) : Prop :=
  Forall well_formed (orders s)
  /\ (forall name t, fs s name = Some t -> Forall well_formed t).

(** The table in memory is the one a new start would load. *)
Definition in_step (s : Bakery) : Prop := orders (restart s) = orders s.

(** The operation is not an update whose quantity or date is turned down. *)
Definition clean_update (o : op) : Prop :=
  match o with
  | OpUpdate _ _ _ quantity order_date =>
      (forall v, provided quantity = Some v -> validate_quantity v = Some true)
      /\ (forall v, provided order_date = Some v -> validate_date v = true)
  | _ => True
  end.

(** The operation writes the backup file. *)
Definition writes_backup (o : op) : bool :=
  match o with
  | OpBackup => true
  | OpExport name => String.eqb name backup_filename
  | _ => false
  end.

(** The row after an update that sets the fields that are given. *)
Definition with_fields (name order : option string) (quantity : option Z)
           (order_date : option string) (o : Order) : Order :=
  mkOrder (OrderID o)
          (match name with Some v => v | None => CustomerName o end)
          (match order with Some v => v | None => OrderText o end)
          (match quantity with Some v => v | None => Quantity o end)
          (match order_date with Some v => v | None => OrderDate o end).

(** The value of a quantity text that is given. *)
Definition quantity_value (quantity : option string) : option Z :=
  match provided quantity with
  | Some v => Some (int_acc 0 v)
  | None => None
  end.

(** The text is a date in the fixed-width form: a year of four digits, a
    month of two, a day of two, with dashes in between; [y], [m], [d] are
    the numbers they read as. *)
Definition fixed_date (s : string) (y m d : Z) : Prop :=
  exists Y M D,
    s = Y ++ "-" ++ M ++ "-" ++ D
    /\ String.length Y = 4%nat /\ decimal Y y
    /\ String.length M = 2%nat /\ decimal M m
    /\ String.length D = 2%nat /\ decimal D d.

(** The first day is the second, or an earlier one. *)
Definition on_or_before (y m d y' m' d' : Z) : Prop :=
  y < y' \/ (y = y' /\ (m < m' \/ (m = m' /\ d <= d'))).

(** The store without what the console shows. *)
Definition forget (s : Bakery) : Bakery :=
  mkBakery (filename s) (orders s) (next_order_id s) (fs s) (log s) [].

(** An integer that fits 64 bits. *)
Definition int64 (z : Z) : bool := (- 2 ^ 63 <=? z) && (z <? 2 ^ 63).

Definition is_letter (c : ascii) : bool :=
  in_range "a" "z" c || in_range "A" "Z" c.

Fixpoint letters_and_blanks (w : string) : bool :=
  match w with
  | EmptyString => true
  | String c w' => (is_letter c || Ascii.eqb c " ") && letters_and_blanks w'
  end.

Definition starts_with_letter (w : string) : bool :=
  match w with
  | EmptyString => false
  | String c _ => is_letter c
  end.

Fixpoint ends_with_letter (w : string) : bool :=
  match w with
  | EmptyString => false
  | String c EmptyString => is_letter c
  | String _ w' => ends_with_letter w'
  end.

(** Words that [read_csv] does not read as the text written, whatever the
    case of their letters: its markers of a missing value, the truth values
    and the names of numbers. *)
Definition csv_words : list string :=
  ["na"; "nan"; "null"; "none"; "true"; "false"; "inf"; "infinity"].

(** A text that a CSV file gives back as it was written: made of the
    letters "a" to "z" and "A" to "Z", with blanks in between, and not one
    of the words above.  (More texts than these are read as written; these
    are.) *)
Definition csv_text (w : string) : bool :=
  starts_with_letter w && ends_with_letter w && letters_and_blanks w
  && negb (existsb (String.eqb (lower_str w)) csv_words).

(** A row whose name and order text are such texts and whose quantity fits
    64 bits. *)
Definition csv_row (o : Order) : Prop :=
  csv_text (CustomerName o) = true
  /\ csv_text (OrderText o) = true
  /\ int64 (Quantity o) = true.

(** A row that a CSV file gives back as it was written: its order id is an
    integer that fits 64 bits with the one after it, its date is one the
    date check accepts. *)
Definition csv_order (o : Order) : Prop :=
  csv_row o
  /\ (exists z, OrderID o = Int z /\ int64 z = true /\ int64 (z + 1) = true)
  /\ validate_date (OrderDate o) = true.

(** Every row in memory and in the files has the property. *)
Definition every_row (P : Order -> Prop) (s : Bakery) : Prop :=
  Forall P (orders s)
  /\ (forall name t, fs s name = Some t -> Forall P t).

Definition csv_given (v : option string) : bool :=
  match provided v with
  | Some w => csv_text w
  | None => true
  end.

(** The name and the order text that the operation gives are texts that a
    CSV file gives back as written, the quantity that it gives, if the
    check lets it pass, fits 64 bits. *)
Definition csv_op (o : op) : bool :=
  match o with
  | OpAdd name order quantity _ =>
      csv_text name && csv_text order
      && (negb (quantity_ok quantity) || int64 (int_acc 0 quantity))
  | OpUpdate _ name order quantity _ =>
      csv_given name && csv_given order
      && match provided quantity with
         | Some v => negb (quantity_ok v) || int64 (int_acc 0 v)
         | None => true
         end
  | _ => true
  end.

(** The operation is not an export onto the log file. *)
Definition spares_log (o : op) : bool :=
  match o with
  | OpExport name => negb (String.eqb name log_filename)
  | _ => true
  end.


(** * Properties *)

(** ** Text and numerals *)

Section TextFacts.

Lemma append_nil_r (w : string) : w ++ EmptyString = w.
Proof. induction w as [|x w IH]; simpl; [reflexivity | now rewrite IH]. Qed.

Lemma append_assoc (u v w : string) : (u ++ v) ++ w = u ++ (v ++ w).
Proof. induction u as [|x u IH]; simpl; [reflexivity | now rewrite IH]. Qed.

Lemma length_append (u v : string) :
  String.length (u ++ v) = (String.length u + String.length v)%nat.
Proof. induction u as [|x u IH]; simpl; [reflexivity | now rewrite IH]. Qed.

Lemma int_acc_snoc (w : string) (c : ascii) : forall acc,
  int_acc acc (w ++ String c EmptyString) = 10 * int_acc acc w + digit_val c.
Proof.
  induction w as [|x w IH]; intro acc; simpl.
  - reflexivity.
  - apply IH.
Qed.

Lemma all_digits_snoc (w : string) (c : ascii) :
  all_digits (w ++ String c EmptyString) = all_digits w && is_digit c.
Proof.
  induction w as [|x w IH]; simpl.
  - now rewrite andb_true_r.
  - now rewrite IH, andb_assoc.
Qed.

Lemma numeral_all_digits (w : string) :
  numeral w = true <-> w <> EmptyString /\ all_digits w = true.
Proof.
  destruct w; simpl; split.
  - discriminate.
  - intros [H _]; now elim H.
  - intro H; split; [discriminate | exact H].
  - now intros [_ H].
Qed.

Lemma decimal_sound (w : string) (n : Z) :
  decimal w n -> numeral w = true /\ int_acc 0 w = n.
Proof.
  induction 1 as [c Hc | w n c _ [IHd IHv] Hc].
  - simpl. rewrite Hc. split; [reflexivity | lia].
  - split.
    + apply numeral_all_digits. split.
      * destruct w; discriminate.
      * rewrite all_digits_snoc, Hc.
        apply numeral_all_digits in IHd. now rewrite (proj2 IHd).
    + now rewrite int_acc_snoc, IHv.
Qed.

Lemma decimal_extend (w : string) : forall p n,
  all_digits w = true -> decimal p n -> decimal (p ++ w) (int_acc n w).
Proof.
  induction w as [|c w IH]; intros p n Hw Hp; simpl in *.
  - now rewrite append_nil_r.
  - apply andb_true_iff in Hw as [Hc Hw].
    replace (p ++ String c w) with ((p ++ String c EmptyString) ++ w)
      by now rewrite append_assoc.
    apply IH; [exact Hw | now constructor].
Qed.

Lemma numeral_decimal (w : string) :
  numeral w = true -> decimal w (int_acc 0 w).
Proof.
  destruct w as [|c w]; [discriminate|].
  simpl. intro H. apply andb_true_iff in H as [Hc Hw].
  replace (10 * 0 + digit_val c) with (digit_val c) by lia.
  apply (decimal_extend w (String c EmptyString) _ Hw).
  now constructor.
Qed.

Lemma digit_not_blank (c : ascii) (w : string) :
  is_digit c = true -> lstrip (String c w) = String c w.
Proof.
  destruct c as [[] [] [] [] [] [] [] []]; try reflexivity; discriminate.
Qed.

Lemma py_int_numeral (w : string) :
  numeral w = true -> py_int w = Some (int_acc 0 w).
Proof.
  intro H. unfold py_int.
  destruct w as [|c w]; [discriminate|].
  assert (Hc : is_digit c = true)
    by (simpl in H; now apply andb_true_iff in H).
  rewrite (digit_not_blank c w Hc). now rewrite H.
Qed.

Lemma py_int_blank (c : ascii) :
  is_digit c = true ->
  py_int (String " " (String c EmptyString)) = Some (digit_val c).
Proof.
  intro Hc. unfold py_int.
  change (lstrip (String " " (String c EmptyString)))
    with (lstrip (String c EmptyString)).
  rewrite (digit_not_blank c EmptyString Hc).
  unfold numeral, all_digits. rewrite Hc. simpl. reflexivity.
Qed.

Lemma all_digits_all_isdigit (w : string) :
  all_digits w = true -> all_isdigit w = true.
Proof.
  induction w as [|c w IH]; simpl; [reflexivity|].
  intro H. apply andb_true_iff in H as [Hc Hw].
  now rewrite Hc, (IH Hw).
Qed.

Lemma numeral_isdigit (w : string) : numeral w = true -> isdigit w = true.
Proof.
  destruct w as [|c w]; [discriminate|]. apply all_digits_all_isdigit.
Qed.

Lemma isdigit_not_blank (w : string) : isdigit w = true -> lstrip w = w.
Proof.
  destruct w as [|c w]; [reflexivity|]. simpl. intro H.
  apply andb_true_iff in H as [Hc _].
  destruct c as [[] [] [] [] [] [] [] []]; try reflexivity; discriminate.
Qed.


(** What the quantity check answers, case by case. *)
Lemma validate_quantity_cases (w : string) :
  validate_quantity w
  = if isdigit w
    then if numeral w then Some (0 <? int_acc 0 w) else None
    else Some false.
Proof.
  unfold validate_quantity, py_int.
  destruct (isdigit w) eqn:E; [|reflexivity].
  rewrite (isdigit_not_blank w E). now destruct (numeral w).
Qed.

(** The quantity check accepts exactly the positive numerals. *)
Lemma validate_quantity_iff (w : string) :
  validate_quantity w = Some true <-> positive_numeral w.
Proof.
  rewrite validate_quantity_cases. unfold positive_numeral. split.
  - destruct (isdigit w); [|discriminate].
    destruct (numeral w) eqn:Hd; [|discriminate].
    intro H. injection H as H. apply Z.ltb_lt in H.
    exists (int_acc 0 w). split; [now apply numeral_decimal | exact H].
  - intros (n & Hd & Hn). apply decimal_sound in Hd as [Hd Hv].
    rewrite (numeral_isdigit w Hd), Hd, Hv. f_equal. now apply Z.ltb_lt.
Qed.


End TextFacts.

(** ** Rows and positions *)

Section Rows.

Variable order_id : Z.

Lemma find_rows_from_nil (t : table) : forall i,
  find_rows_from i order_id t = [] <-> rows_with_id order_id t = [].
Proof.
  induction t as [|o t IH]; intro i; simpl.
  - tauto.
  - destruct (num_eqb (OrderID o) order_id).
    + split; discriminate.
    + apply IH.
Qed.

Lemma find_rows_from_ge (t : table) : forall i j,
  In j (find_rows_from i order_id t) -> (i <= j)%nat.
Proof.
  induction t as [|o t IH]; intros i j; simpl.
  - tauto.
  - destruct (num_eqb (OrderID o) order_id); simpl.
    + intros [<- | H]; [lia | apply IH in H; lia].
    + intro H. apply IH in H. lia.
Qed.

Lemma not_listed_before (t : table) (i j : nat) :
  (i < j)%nat -> existsb (Nat.eqb i) (find_rows_from j order_id t) = false.
Proof.
  intro Hij. apply not_true_is_false. intro H.
  apply existsb_exists in H as (k & Hk & Heq).
  apply Nat.eqb_eq in Heq. subst k.
  apply find_rows_from_ge in Hk. lia.
Qed.

Lemma drop_from_older (t : table) : forall i j idx,
  (i < j)%nat -> drop_from j (i :: idx) t = drop_from j idx t.
Proof.
  induction t as [|o t IH]; intros i j idx Hij; simpl.
  - reflexivity.
  - destruct (Nat.eqb_spec j i) as [->|_]; [lia|].
    simpl. rewrite (IH i (S j) idx) by lia. reflexivity.
Qed.

(** Dropping the rows found for an id keeps exactly the other rows. *)
Lemma drop_found (t : table) : forall i,
  drop_from i (find_rows_from i order_id t) t
  = filter (fun o => negb (has_id order_id o)) t.
Proof.
  unfold has_id.
  induction t as [|o t IH]; intro i; simpl.
  - reflexivity.
  - destruct (num_eqb (OrderID o) order_id) eqn:E; simpl.
    + rewrite Nat.eqb_refl. simpl.
      rewrite drop_from_older by lia. apply IH.
    + rewrite not_listed_before by lia. now rewrite IH.
Qed.

Lemma rows_with_id_after_drop (t : table) :
  rows_with_id order_id (filter (fun o => negb (has_id order_id o)) t) = [].
Proof.
  unfold rows_with_id, has_id.
  induction t as [|o t IH]; simpl; [reflexivity|].
  destruct (num_eqb (OrderID o) order_id) eqn:E; simpl; [exact IH|].
  now rewrite E.
Qed.

Lemma rows_with_id_present (t : table) :
  rows_with_id order_id t <> [] <-> present order_id t.
Proof.
  unfold rows_with_id, present. split.
  - intro H.
    destruct (filter (fun o => num_eqb (OrderID o) order_id) t)
      as [|o r] eqn:E; [now elim H|].
    assert (Ho : In o (o :: r)) by now left.
    rewrite <- E in Ho. apply filter_In in Ho as [Hin Hid].
    exists o. split; [exact Hin|].
    destruct (OrderID o) as [z|]; simpl in Hid; [|discriminate].
    apply Z.eqb_eq in Hid. now subst.
  - intros (o & Hin & Hid) E.
    assert (Ho : In o (filter (fun o => num_eqb (OrderID o) order_id) t)).
    { apply filter_In. split; [exact Hin|].
      rewrite Hid. simpl. apply Z.eqb_refl. }
    rewrite E in Ho. exact Ho.
Qed.

End Rows.

(** ** Validation of the quantity *)

(** C7 (the code departs from it): the superscript two is a digit for
    [isdigit] and not for [int].  A quantity written with it is not reported
    as invalid: [int] raises [ValueError] inside the check, nothing catches
    it, and the exception leaves [add_order], at the menu the program.  The
    store is as it was.  The quantity "0", for comparison, is reported. *)
Theorem quantity_superscript_raises :
  let two := String "178"%char EmptyString in
  let s := fresh "bakery_orders.csv" in
  isdigit two = true
  /\ py_int two = None
  /\ validate_quantity two = None
  /\ add_order_call "A" "Bread" two "2024-01-01" s = Raise s
  /\ add_order "A" "Bread" two "2024-01-01" s
     <> print (Line msg_invalid_quantity) s
  /\ (forall to_int : string -> option Z,
        snd (menu_loop to_int ["1"; "A"; "Bread"; two; "2024-01-01"; "10"] s)
        = ValueError)
  /\ add_order_call "A" "Bread" "0" "2024-01-01" s
     = Return (print (Line msg_invalid_quantity) s).
Proof.
  repeat split; try reflexivity.
  intro H. apply (f_equal console) in H. vm_compute in H. discriminate.
Qed.

(** ** Updates *)

Lemma find_rows_present (order_id : Z) (t : table) :
  present order_id t ->
  exists i idx, find_rows order_id t = i :: idx.
Proof.
  intro H. apply rows_with_id_present in H.
  unfold find_rows.
  destruct (find_rows_from 0 order_id t) as [|i idx] eqn:E.
  - apply find_rows_from_nil in E. now elim H.
  - now exists i, idx.
Qed.

(** C10: updating an order that is in the table with none of the four
    fields given is carried out as a successful update: the rows and the
    counter stay as they are, the whole table is written to the file, the
    action is logged, the notification is sent and success is reported; the
    log line and the success line are those of an update that sets a
    field. *)
Theorem update_order_without_fields :
  forall (order_id : Z) (s : Bakery),
    present order_id (orders s) ->
    orders (update_order order_id None None None None s) = orders s
    /\ next_order_id (update_order order_id None None None None s)
       = next_order_id s
    /\ fs (update_order order_id None None None None s)
       = write_file (filename s) (orders s) (fs s)
    /\ log (update_order order_id None None None None s)
       = (log s ++ [("Updated order ID: " ++ str_of_Z order_id)%string])%list
    /\ console (update_order order_id None None None None s)
       = (console s
          ++ [Line ("Notification: Order updated: " ++ str_of_Z order_id
                    ++ ", None, None, None, None")%string;
              Line ("Order ID " ++ str_of_Z order_id
                    ++ " updated successfully.")%string])%list
    /\ (forall name order : option string,
          log (update_order order_id name order None None s)
          = log (update_order order_id None None None None s)
          /\ last (console (update_order order_id name order None None s))
                  (Line "")
             = last (console (update_order order_id None None None None s))
                    (Line "")
          /\ fs (update_order order_id name order None None s) (filename s)
             = Some (orders (update_order order_id name order None None s))).
Proof.
  intros order_id s H.
  destruct (find_rows_present order_id (orders s) H) as (i & idx & E).
  unfold update_order, update_order_call. rewrite E. simpl.
  repeat split; try now rewrite <- app_assoc.
  - destruct (provided name), (provided order); reflexivity.
  - destruct (provided name), (provided order); simpl;
      rewrite ?last_last; reflexivity.
  - destruct (provided name), (provided order); simpl;
      unfold write_file; now rewrite String.eqb_refl.
Qed.

Lemma update_order_without_fields_witness :
  let s := add_order "Alice" "Croissant" "3" "2024-05-01"
             (fresh "bakery_orders.csv") in
  orders (update_order 1 None None None None s) = orders s
  /\ log (update_order 1 None None None None s)
     = ["Added order ID: 1"; "Updated order ID: 1"]
  /\ fs (update_order 1 None None None None s) "bakery_orders.csv"
     = Some (orders s).
Proof.
  assert (P : present 1 (orders (add_order "Alice" "Croissant" "3" "2024-05-01"
                                   (fresh "bakery_orders.csv")))).
  { eexists. split; [left; reflexivity | reflexivity]. }
  destruct (update_order_without_fields 1 _ P) as (Ho & _ & Hf & Hl & _).
  split; [exact Ho | split].
  - rewrite Hl. reflexivity.
  - rewrite Hf. reflexivity.
Defined.

(** C2 (the code departs from it): an update that names a new customer and
    an invalid quantity reports the invalid quantity and leaves the file as
    it was, but the row in memory already carries the new name. *)
Theorem update_order_keeps_name_after_bad_quantity :
  let s := add_order "Alice" "Bread" "2" "2024-01-01"
             (fresh "bakery_orders.csv") in
  let s' := update_order 1 (Some "Bob") None (Some "0") None s in
  map CustomerName (orders s) = ["Alice"]
  /\ map CustomerName (orders s') = ["Bob"]
  /\ orders s' <> orders s
  /\ fs s' "bakery_orders.csv" = Some (orders s)
  /\ fs s' = fs s
  /\ console s' = (console s ++ [Line msg_invalid_quantity])%list
  /\ log s' = log s.
Proof.
  vm_compute. repeat split. discriminate.
Qed.

(** ** What each operation does to the rows and to the counter *)

Ltac unfold_ops :=
  unfold with_next, send_notification, print, log_action, save_orders,
    to_csv, with_orders; simpl.

Lemma validate_quantity_int (v : string) :
  validate_quantity v = Some true ->
  py_int v = Some (int_acc 0 v) /\ 0 < int_acc 0 v.
Proof.
  intro H. apply validate_quantity_iff in H as (n & Hd & Hn).
  apply decimal_sound in Hd as [Hd Hv].
  rewrite (py_int_numeral v Hd). split; [reflexivity | lia].
Qed.

Lemma add_order_call_valid (name order quantity order_date : string)
      (s : Bakery) :
  validate_quantity quantity = Some true ->
  validate_date order_date = true ->
  add_order_call name order quantity order_date s
  = Next (added name order quantity order_date s).
Proof.
  intros Hq Hd. unfold add_order_call. rewrite Hq, Hd. simpl.
  rewrite (proj1 (validate_quantity_int quantity Hq)).
  unfold added. unfold_ops. now rewrite <- app_assoc.
Qed.

Lemma add_order_valid (name order quantity order_date : string) (s : Bakery) :
  validate_quantity quantity = Some true ->
  validate_date order_date = true ->
  add_order name order quantity order_date s
  = added name order quantity order_date s.
Proof.
  intros Hq Hd. unfold add_order. now rewrite add_order_call_valid.
Qed.

Lemma add_order_bad_date (name order quantity order_date : string) (s : Bakery) :
  validate_quantity quantity = Some true ->
  validate_date order_date = false ->
  add_order name order quantity order_date s = print (Line msg_invalid_date) s.
Proof.
  intros Hq Hd. unfold add_order, add_order_call. now rewrite Hq, Hd.
Qed.

Lemma add_order_bad_quantity (name order quantity order_date : string)
      (s : Bakery) :
  validate_quantity quantity = Some false ->
  add_order name order quantity order_date s
  = print (Line msg_invalid_quantity) s.
Proof.
  intro Hq. unfold add_order, add_order_call. now rewrite Hq.
Qed.

(** An exception that leaves [add_order] leaves the store as it was. *)
Lemma add_order_raised (name order quantity order_date : string)
      (s : Bakery) :
  validate_quantity quantity = None ->
  add_order_call name order quantity order_date s = Raise s
  /\ add_order name order quantity order_date s = s.
Proof.
  intro Hq. unfold add_order, add_order_call. now rewrite Hq.
Qed.

(** The three ways a call of [add_order] can go on after the quantity
    check, and what the store is after each. *)
Lemma add_order_cases (name order quantity order_date : string) (s : Bakery) :
  (quantity_ok quantity && validate_date order_date = true
   /\ add_order name order quantity order_date s
      = added name order quantity order_date s)
  \/ (quantity_ok quantity && validate_date order_date = false
      /\ exists x, add_order name order quantity order_date s
                   = print (Line x) s)
  \/ (quantity_ok quantity && validate_date order_date = false
      /\ add_order name order quantity order_date s = s).
Proof.
  unfold quantity_ok.
  destruct (validate_quantity quantity) as [[|]|] eqn:Hq.
  - destruct (validate_date order_date) eqn:Hd.
    + left. split; [reflexivity | now apply add_order_valid].
    + right. left. split; [reflexivity|].
      eexists. now apply add_order_bad_date.
  - right. left. split; [reflexivity|].
    eexists. now apply add_order_bad_quantity.
  - right. right. split; [reflexivity|].
    now apply add_order_raised.
Qed.

Lemma ids_set_at (f : Order -> Order) (t : table) :
  (forall o, OrderID (f o) = OrderID o) ->
  forall i, ids (set_at i f t) = ids t.
Proof.
  intro Hf. induction t as [|o t IH]; intros [|i]; simpl; try reflexivity.
  - now rewrite Hf.
  - unfold ids in IH. now rewrite IH.
Qed.

Ltac split_cases :=
  repeat match goal with
         | |- context [match provided ?x with _ => _ end] =>
             destruct (provided x)
         | |- context [match validate_quantity ?x with _ => _ end] =>
             destruct (validate_quantity x) as [[|]|]
         | |- context [if negb (validate_date ?x) then _ else _] =>
             destruct (validate_date x)
         | |- context [match py_int ?x with _ => _ end] =>
             destruct (py_int x)
         | |- _ => progress simpl
         end.

Lemma update_order_ids (order_id : Z) (name order quantity order_date : option string)
      (s : Bakery) :
  ids (orders (update_order order_id name order quantity order_date s))
  = ids (orders s).
Proof.
  unfold update_order, update_order_call.
  destruct (find_rows order_id (orders s)) as [|i idx]; [reflexivity|].
  split_cases;
    repeat (rewrite ids_set_at by (intros []; reflexivity));
    reflexivity.
Qed.

Lemma update_order_counter (order_id : Z)
      (name order quantity order_date : option string) (s : Bakery) :
  next_order_id (update_order order_id name order quantity order_date s)
  = next_order_id s.
Proof.
  unfold update_order, update_order_call.
  destruct (find_rows order_id (orders s)) as [|i idx]; [reflexivity|].
  split_cases; reflexivity.
Qed.

Lemma delete_order_rows (order_id : Z) (s : Bakery) :
  orders (delete_order order_id s)
  = filter (fun o => negb (has_id order_id o)) (orders s).
Proof.
  unfold delete_order.
  destruct (find_rows order_id (orders s)) as [|i idx] eqn:E.
  - simpl. apply find_rows_from_nil in E.
    symmetry. apply forallb_filter_id.
    apply forallb_forall. intros o Ho.
    destruct (has_id order_id o) eqn:Hid; [|reflexivity].
    assert (In o (rows_with_id order_id (orders s)))
      by (apply filter_In; now split).
    rewrite E in H. contradiction.
  - simpl. rewrite <- E. apply drop_found.
Qed.

Lemma delete_order_absent (order_id : Z) (s : Bakery) :
  ~ present order_id (orders s) ->
  delete_order order_id s = print (Line (msg_not_found order_id)) s.
Proof.
  intro H. unfold delete_order.
  destruct (find_rows order_id (orders s)) as [|i idx] eqn:E; [reflexivity|].
  elim H. apply rows_with_id_present. intro R.
  apply (find_rows_from_nil order_id (orders s) 0%nat) in R.
  unfold find_rows in E. congruence.
Qed.

(** ** Sessions in which the counter is not recomputed *)

Lemma order_summary_frame (s : Bakery) :
  orders (order_summary s) = orders s
  /\ next_order_id (order_summary s) = next_order_id s.
Proof.
  unfold order_summary. simpl.
  destruct (most_popular_order (orders s)); simpl; split; reflexivity.
Qed.

Lemma filter_orders_frame (customer_name start_date end_date : option string)
      (s s' : Bakery) :
  filter_orders customer_name start_date end_date s = Some s' ->
  orders s' = orders s /\ next_order_id s' = next_order_id s.
Proof.
  unfold filter_orders.
  destruct (filter_rows customer_name start_date end_date (orders s))
    as [[|o r]|]; intro H; inversion H; subst; simpl; split; reflexivity.
Qed.

Lemma lookup_order_frame (order_id : Z) (s : Bakery) :
  orders (lookup_order order_id s) = orders s
  /\ next_order_id (lookup_order order_id s) = next_order_id s.
Proof.
  unfold lookup_order.
  destruct (rows_with_id order_id (orders s)); simpl; split; reflexivity.
Qed.

Lemma delete_order_counter (order_id : Z) (s : Bakery) :
  next_order_id (delete_order order_id s) = next_order_id s.
Proof.
  unfold delete_order.
  destruct (find_rows order_id (orders s)); reflexivity.
Qed.

(** The counter moves by one when an id is given out, and not otherwise. *)
Lemma step_counter (o : op) (s : Bakery) :
  keeps_counter o = true ->
  next_order_id (step o s)
  = match assigned_by o s with
    | [] => next_order_id s
    | _ :: _ => num_succ (next_order_id s)
    end.
Proof.
  destruct o; simpl; try discriminate; intros _.
  - destruct (add_order_cases name order quantity order_date s)
      as [[E ->] | [[E [x ->]] | [E ->]]]; rewrite E; reflexivity.
  - apply update_order_counter.
  - apply delete_order_counter.
  - apply lookup_order_frame.
  - destruct (filter_orders customer_name start_date end_date s) eqn:E;
      [|reflexivity].
    now apply filter_orders_frame in E.
  - reflexivity.
  - reflexivity.
  - apply order_summary_frame.
Qed.

(** The order ids of the table after a step were there before the step or
    were given out by it. *)
Lemma step_ids (o : op) (s : Bakery) (x : pynum) :
  keeps_counter o = true ->
  In x (ids (orders (step o s))) ->
  In x (ids (orders s)) \/ In x (assigned_by o s).
Proof.
  destruct o; simpl; try discriminate; intros _.
  - destruct (add_order_cases name order quantity order_date s)
      as [[E ->] | [[E [y ->]] | [E ->]]]; rewrite E; simpl; try tauto.
    unfold ids. rewrite map_app, in_app_iff. simpl. tauto.
  - rewrite update_order_ids. tauto.
  - rewrite delete_order_rows. unfold ids. rewrite in_map_iff.
    intros (r & Hr & Hin). apply filter_In in Hin as [Hin _].
    left. apply in_map_iff. now exists r.
  - rewrite (proj1 (lookup_order_frame order_id s)). tauto.
  - destruct (filter_orders customer_name start_date end_date s) eqn:E;
      [|tauto].
    apply filter_orders_frame in E as [-> _]. tauto.
  - tauto.
  - tauto.
  - rewrite (proj1 (order_summary_frame s)). tauto.
Qed.

Lemma map_seq_from (A : Type) (b : nat) : forall (f : nat -> A) (a : nat),
  map f (seq a b) = map (fun i => f (a + i)%nat) (seq 0 b).
Proof.
  induction b as [|b IH]; intros f a; simpl.
  - reflexivity.
  - rewrite Nat.add_0_r. f_equal.
    rewrite (IH f (S a)), (IH (fun i => f (a + i)%nat) 1%nat).
    apply map_ext. intro i. f_equal. lia.
Qed.

Lemma consecutive_app (n : Z) (a b : nat) :
  consecutive n (a + b) = (consecutive n a ++ consecutive (n + Z.of_nat a) b)%list.
Proof.
  unfold consecutive. rewrite seq_app, map_app. f_equal.
  simpl. rewrite map_seq_from.
  apply map_ext. intro i. f_equal. lia.
Qed.

Lemma consecutive_In (n : Z) (k : nat) (x : pynum) :
  In x (consecutive n k) <-> exists z, x = Int z /\ n <= z < n + Z.of_nat k.
Proof.
  unfold consecutive. rewrite in_map_iff. split.
  - intros (i & <- & Hi). apply in_seq in Hi.
    exists (n + Z.of_nat i). split; [reflexivity | lia].
  - intros (z & -> & Hz). exists (Z.to_nat (z - n)). split.
    + f_equal. lia.
    + apply in_seq. lia.
Qed.

Lemma consecutive_NoDup (n : Z) (k : nat) : NoDup (consecutive n k).
Proof.
  unfold consecutive. apply NoDup_map_NoDup_ForallPairs.
  - intros i j _ _ H. injection H. lia.
  - apply seq_NoDup.
Qed.

Lemma assigned_by_length (o : op) (s : Bakery) :
  assigned_by o s = []
  \/ assigned_by o s = [next_order_id s].
Proof.
  destruct o; simpl; auto.
  destruct (quantity_ok quantity && validate_date order_date); auto.
Qed.

(** Along such a session the ids given out are the counter's successive
    values. *)
Lemma assigned_consecutive (l : list op) : forall (s : Bakery) (n : Z),
  forallb keeps_counter l = true ->
  next_order_id s = Int n ->
  assigned l s = consecutive n (length (assigned l s))
  /\ next_order_id (run l s) = Int (n + Z.of_nat (length (assigned l s))).
Proof.
  induction l as [|o l IH]; intros s n Hl Hn; simpl in *.
  - split; [reflexivity | rewrite Hn; f_equal; lia].
  - apply andb_true_iff in Hl as [Ho Hl].
    pose proof (step_counter o s Ho) as Hc.
    destruct (assigned_by_length o s) as [E | E]; rewrite E in *.
    + simpl. apply IH; [exact Hl | now rewrite Hc].
    + rewrite Hn in Hc. simpl in Hc.
      destruct (IH (step o s) (n + 1) Hl Hc) as [IHa IHn].
      rewrite length_app. simpl length.
      rewrite (consecutive_app n 1). split.
      * simpl. rewrite Hn. unfold consecutive at 1. simpl.
        replace (n + 0) with n by lia. f_equal.
        replace (n + 1) with (n + Z.of_nat 1) in IHa by lia. exact IHa.
      * unfold run in *. rewrite IHn. f_equal. lia.
Qed.

Lemma run_ids (l : list op) : forall (s : Bakery) (x : pynum),
  forallb keeps_counter l = true ->
  In x (ids (orders (run l s))) ->
  In x (ids (orders s)) \/ In x (assigned l s).
Proof.
  induction l as [|o l IH]; intros s x Hl Hx; simpl in *.
  - now left.
  - apply andb_true_iff in Hl as [Ho Hl].
    destruct (IH (step o s) x Hl Hx) as [H | H].
    + destruct (step_ids o s x Ho H); [now left | right].
      apply in_app_iff. now left.
    + right. apply in_app_iff. now right.
Qed.

Lemma present_ids (order_id : Z) (t : table) :
  present order_id t <-> In (Int order_id) (ids t).
Proof.
  unfold present, ids. rewrite in_map_iff. split.
  - intros (o & Hin & Hid). now exists o.
  - intros (o & Hid & Hin). now exists o.
Qed.

Lemma lookup_order_absent (order_id : Z) (s : Bakery) :
  ~ present order_id (orders s) ->
  lookup_order order_id s = print (Line (msg_not_found order_id)) s.
Proof.
  intro H. unfold lookup_order.
  destruct (rows_with_id order_id (orders s)) as [|o r] eqn:E; [reflexivity|].
  elim H. apply rows_with_id_present. rewrite E. discriminate.
Qed.

Lemma absent_after_delete (order_id : Z) (s : Bakery) :
  ~ present order_id (orders (delete_order order_id s)).
Proof.
  rewrite delete_order_rows. intro H.
  apply rows_with_id_present in H. apply H.
  apply rows_with_id_after_drop.
Qed.

Lemma length_without_id (order_id : Z) (t : table) :
  NoDup (ids t) ->
  present order_id t ->
  S (length (filter (fun o => negb (has_id order_id o)) t)) = length t.
Proof.
  induction t as [|o t IH]; intros Hnd Hp.
  - destruct Hp as (x & [] & _).
  - simpl in Hnd. apply NoDup_cons_iff in Hnd as [Hnew Hnd].
    simpl. destruct (has_id order_id o) eqn:E; simpl.
    + f_equal. f_equal. apply forallb_filter_id. apply forallb_forall.
      intros r Hr. destruct (has_id order_id r) eqn:Er; [|reflexivity].
      elim Hnew. unfold has_id in *.
      destruct (OrderID o) as [a|] eqn:Ea; [|discriminate].
      destruct (OrderID r) as [b|] eqn:Eb; [|discriminate].
      simpl in *. apply Z.eqb_eq in E, Er. subst a b.
      rewrite <- Eb. apply in_map. exact Hr.
    + f_equal. apply IH; [exact Hnd|].
      destruct Hp as (x & [<- | Hx] & Hid).
      * unfold has_id in E. rewrite Hid in E. simpl in E.
        rewrite Z.eqb_refl in E. discriminate.
      * now exists x.
Qed.

(** ** Order ids over time *)

(** C3, as the code has it: in a session with no restore and no restart the
    ids given out by [add_order] are the successive values of the counter,
    so none is given out twice, whether its order was deleted or not, and
    none is an id of the table the session started from. *)
Theorem ids_not_reused_within_session :
  forall (l : list op) (s : Bakery) (n : Z),
    forallb keeps_counter l = true ->
    next_order_id s = Int n ->
    counter_above n (orders s) ->
    assigned l s = consecutive n (length (assigned l s))
    /\ NoDup (assigned l s)
    /\ (forall o, In o (orders s) -> ~ In (OrderID o) (assigned l s)).
Proof.
  intros l s n Hl Hn Habove.
  destruct (assigned_consecutive l s n Hl Hn) as [E _].
  split; [exact E | split].
  - rewrite E. apply consecutive_NoDup.
  - intros o Ho Hin. rewrite E in Hin.
    apply consecutive_In in Hin as (z & Hz & Hrange).
    destruct (Habove o Ho) as (z' & Hz' & Hlt).
    rewrite Hz' in Hz. injection Hz as ->. lia.
Qed.

Lemma ids_not_reused_within_session_witness :
  let l := [OpAdd "Alice" "Croissant" "3" "2024-05-01"; OpDelete 1;
            OpAdd "Bob" "Bread" "2" "2024-05-02"] in
  assigned l (fresh "bakery_orders.csv") = [Int 1; Int 2]
  /\ NoDup (assigned l (fresh "bakery_orders.csv")).
Proof.
  intro l.
  assert (Habove : counter_above 1 (orders (fresh "bakery_orders.csv"))).
  { intros o []. }
  destruct (ids_not_reused_within_session l (fresh "bakery_orders.csv") 1
              eq_refl eq_refl Habove) as (E & Hnd & _).
  split; [reflexivity | exact Hnd].
Defined.

(** C3 as stated fails: the id of a deleted order is given out again once
    the counter is recomputed from the file. *)
Lemma deleted_id_reused_after_restart :
  let s0 := fresh "bakery_orders.csv" in
  let l := [OpAdd "Alice" "Croissant" "3" "2024-05-01"; OpDelete 1;
            OpRestart; OpAdd "Bob" "Bread" "2" "2024-05-02"] in
  assigned l s0 = [Int 1; Int 1]
  /\ ~ NoDup (assigned l s0)
  /\ orders (run [OpAdd "Alice" "Croissant" "3" "2024-05-01"; OpDelete 1] s0) = []
  /\ orders (run l s0) = [mkOrder (Int 1) "Bob" "Bread" 2 "2024-05-02"].
Proof.
  repeat split; try reflexivity.
  intro H. vm_compute in H. inversion H as [|x r Hin _]. apply Hin. now left.
Qed.

(** ** Deleting *)

(** C9, as the code has it: in a table whose order ids are pairwise
    distinct, deleting an id that is there removes its row and no other, so
    the table gets shorter by one, and looking the id up reports that it is
    not found, at once and after any further operations of the session
    other than restore and restart; deleting an id that is not there
    reports that it is not found and changes neither the table nor the
    files. *)
Theorem delete_order_effect :
  forall (order_id : Z) (s : Bakery),
    (present order_id (orders s) ->
     NoDup (ids (orders s)) ->
     orders (delete_order order_id s)
       = filter (fun o => negb (has_id order_id o)) (orders s)
     /\ S (length (orders (delete_order order_id s))) = length (orders s)
     /\ lookup_order order_id (delete_order order_id s)
        = print (Line (msg_not_found order_id)) (delete_order order_id s)
     /\ (forall (n : Z) (l : list op),
           next_order_id s = Int n ->
           counter_above n (orders s) ->
           forallb keeps_counter l = true ->
           lookup_order order_id (run l (delete_order order_id s))
           = print (Line (msg_not_found order_id))
                   (run l (delete_order order_id s))))
    /\ (~ present order_id (orders s) ->
        delete_order order_id s = print (Line (msg_not_found order_id)) s
        /\ orders (delete_order order_id s) = orders s
        /\ fs (delete_order order_id s) = fs s).
Proof.
  intros order_id s. split.
  - intros Hp Hnd. split; [apply delete_order_rows | split; [|split]].
    + rewrite delete_order_rows. now apply length_without_id.
    + apply lookup_order_absent, absent_after_delete.
    + intros n l Hn Habove Hl. apply lookup_order_absent. intro Hq.
      apply present_ids in Hq.
      apply run_ids in Hq; [|exact Hl]. destruct Hq as [Hq | Hq].
      * apply present_ids in Hq. now apply absent_after_delete in Hq.
      * assert (Hn' : next_order_id (delete_order order_id s) = Int n)
          by now rewrite delete_order_counter.
        destruct (assigned_consecutive l _ n Hl Hn') as [E _].
        rewrite E in Hq. apply consecutive_In in Hq as (z & Hz & Hrange).
        injection Hz as <-.
        destruct Hp as (o & Ho & Hid).
        destruct (Habove o Ho) as (z & Hz & Hlt).
        rewrite Hid in Hz. injection Hz as <-. lia.
  - intro Hp. rewrite (delete_order_absent order_id s Hp). repeat split.
Qed.

Lemma delete_order_effect_witness :
  let s := add_order "Alice" "Croissant" "3" "2024-05-01"
             (fresh "bakery_orders.csv") in
  let l := [OpAdd "Bob" "Bread" "2" "2024-05-02"; OpBackup] in
  (orders (delete_order 1 s) = []
   /\ S (length (orders (delete_order 1 s))) = length (orders s)
   /\ lookup_order 1 (run l (delete_order 1 s))
      = print (Line (msg_not_found 1)) (run l (delete_order 1 s)))
  /\ delete_order 7 s = print (Line (msg_not_found 7)) s.
Proof.
  intros s l.
  assert (Hp : present 1 (orders s)).
  { eexists. split; [left; reflexivity | reflexivity]. }
  assert (Hnd : NoDup (ids (orders s))).
  { vm_compute. constructor; [intros [] | constructor]. }
  assert (Habove : counter_above 2 (orders s)).
  { intros o [<- | []]. exists 1. split; [reflexivity | lia]. }
  assert (Hq : ~ present 7 (orders s)).
  { intros (o & [<- | []] & Hid). discriminate. }
  destruct (delete_order_effect 1 s) as [H1 _].
  destruct (delete_order_effect 7 s) as [_ H2].
  destruct (H1 Hp Hnd) as (Ho & Hlen & _ & Hlater).
  split; [split; [|split] |].
  - rewrite Ho. reflexivity.
  - exact Hlen.
  - apply (Hlater 2 l eq_refl Habove eq_refl).
  - apply (H2 Hq).
Defined.

(** C9 as stated fails: after a restore the deleted order is found again,
    and after a restart its id goes to the next order added. *)
Lemma deleted_order_found_after_restore :
  let s := backup_orders
             (add_order "Alice" "Croissant" "3" "2024-05-01"
                (fresh "bakery_orders.csv")) in
  let s' := restore_orders (delete_order 1 s) in
  let s'' := add_order "Bob" "Bread" "2" "2024-05-02"
               (restart (delete_order 1 s)) in
  present 1 (orders s)
  /\ orders (delete_order 1 s) = []
  /\ lookup_order 1 s'
     = print (Frame [mkOrder (Int 1) "Alice" "Croissant" 3 "2024-05-01"]) s'
  /\ lookup_order 1 s' <> print (Line (msg_not_found 1)) s'
  /\ lookup_order 1 s''
     = print (Frame [mkOrder (Int 1) "Bob" "Bread" 2 "2024-05-02"]) s''.
Proof.
  split; [|split; [|split; [|split]]].
  - eexists. split; [left; reflexivity | reflexivity].
  - vm_compute. reflexivity.
  - vm_compute. reflexivity.
  - intro H. apply (f_equal console) in H. vm_compute in H. discriminate.
  - vm_compute. reflexivity.
Qed.

(** ** Backup and restore *)




Lemma filter_none (A : Type) (f : A -> bool) (l : list A) :
  (forall x, In x l -> f x = false) -> filter f l = [].
Proof.
  induction l as [|x l IH]; intro H; simpl; [reflexivity|].
  rewrite (H x (or_introl eq_refl)). apply IH.
  intros y Hy. apply H. now right.
Qed.


Lemma series_max_greatest (t : table) :
  integer_ids t -> t <> [] ->
  exists m, series_max (ids t) = Int m /\ greatest_id m t.
Proof.
  induction t as [|o t IH]; intros Hint Hne; [now elim Hne|].
  assert (Hint' : integer_ids t) by (intros x Hx; apply Hint; now right).
  destruct (Hint o (or_introl eq_refl)) as (z & Hz).
  simpl. rewrite Hz.
  destruct t as [|r t].
  - simpl. exists z. split; [reflexivity|]. unfold greatest_id. simpl.
    rewrite Hz. split; [now left|].
    intros x [Hx | []]. injection Hx. lia.
  - destruct (IH Hint') as (m & Hm & Hin & Hmax); [discriminate|].
    rewrite Hm. exists (Z.max z m). split; [reflexivity|].
    unfold greatest_id. change (ids (o :: r :: t)) with (OrderID o :: ids (r :: t)).
    rewrite Hz. split.
    + destruct (Z.max_spec z m) as [[_ ->] | [_ ->]]; [right; exact Hin | now left].
    + intros x [Hx | Hx].
      * injection Hx. lia.
      * apply Hmax in Hx. lia.
Qed.

(** ** The invariant of the store *)

Section Invariant.

Lemma integer_ids_same (t t' : table) :
  ids t' = ids t -> integer_ids t -> integer_ids t'.
Proof.
  intros E H o Ho.
  assert (Hin : In (OrderID o) (ids t)) by (rewrite <- E; now apply in_map).
  apply in_map_iff in Hin as (r & Hr & Hin).
  destruct (H r Hin) as (z & Hz). exists z. congruence.
Qed.

Lemma counter_above_same (n : Z) (t t' : table) :
  ids t' = ids t -> counter_above n t -> counter_above n t'.
Proof.
  intros E H o Ho.
  assert (Hin : In (OrderID o) (ids t)) by (rewrite <- E; now apply in_map).
  apply in_map_iff in Hin as (r & Hr & Hin).
  destruct (H r Hin) as (z & Hz & Hlt). exists z. split; congruence.
Qed.

Lemma counter_above_integer (n : Z) (t : table) :
  counter_above n t -> integer_ids t.
Proof.
  intros H o Ho. destruct (H o Ho) as (z & Hz & _). now exists z.
Qed.

Lemma NoDup_ids_filter (f : Order -> bool) (t : table) :
  NoDup (ids t) -> NoDup (ids (filter f t)).
Proof.
  induction t as [|o t IH]; simpl; [trivial|].
  intro H. apply NoDup_cons_iff in H as [Hnew H].
  destruct (f o); simpl; [|now apply IH].
  apply NoDup_cons; [|now apply IH].
  intro Hin. apply Hnew. apply in_map_iff in Hin as (r & Hr & Hin).
  apply filter_In in Hin as [Hin _]. apply in_map_iff. now exists r.
Qed.

Lemma sound_write (name : string) (t : table) (f : files) :
  sound_table t ->
  (forall n t', f n = Some t' -> sound_table t') ->
  forall n t', write_file name t f n = Some t' -> sound_table t'.
Proof.
  intros Ht Hf n t'. unfold write_file.
  destruct (String.eqb n name); [|apply Hf].
  intro E. now injection E as <-.
Qed.

Lemma update_order_files (order_id : Z)
      (name order quantity order_date : option string) (s : Bakery) :
  fs (update_order order_id name order quantity order_date s) = fs s
  \/ fs (update_order order_id name order quantity order_date s)
     = write_file (filename s)
         (orders (update_order order_id name order quantity order_date s))
         (fs s).
Proof.
  unfold update_order, update_order_call.
  destruct (find_rows order_id (orders s)) as [|i idx]; [now left|].
  split_cases; auto.
Qed.

Lemma delete_order_files (order_id : Z) (s : Bakery) :
  fs (delete_order order_id s) = fs s
  \/ fs (delete_order order_id s)
     = write_file (filename s) (orders (delete_order order_id s)) (fs s).
Proof.
  unfold delete_order.
  destruct (find_rows order_id (orders s)) as [|i idx]; [now left|].
  now right.
Qed.

(** Every operation keeps the invariant, a restore of a backup that holds no
    order apart. *)
Lemma sound_step (o : op) (s : Bakery) :
  sound s ->
  (o = OpRestore -> fs s backup_filename <> Some []) ->
  sound (step o s).
Proof.
  intros ((n & Hn & Habove) & Hnd & Hfs) Hrestore.
  pose proof (counter_above_integer n (orders s) Habove) as Hint.
  assert (Htable : sound_table (orders s)) by now split.
  destruct o; simpl.
  - (* add *)
    destruct (add_order_cases name order quantity order_date s)
      as [[_ ->] | [[_ [x ->]] | [_ ->]]].
    + unfold added. simpl.
      assert (Habove' : counter_above (n + 1)
                (orders s ++ [mkOrder (next_order_id s) name order
                                      (int_acc 0 quantity) order_date])%list).
      { intros r Hr. apply in_app_iff in Hr as [Hr | [<- | []]].
        - destruct (Habove r Hr) as (z & Hz & Hlt). exists z. split; [exact Hz | lia].
        - exists n. split; [exact Hn | lia]. }
      assert (Hnd' : NoDup (ids (orders s
                ++ [mkOrder (next_order_id s) name order
                            (int_acc 0 quantity) order_date])%list)).
      { unfold ids. rewrite map_app. apply NoDup_app; [exact Hnd | |].
        - simpl. constructor; [intros [] | constructor].
        - intros x Hx [<- | []]. simpl in Hx.
          apply in_map_iff in Hx as (r & Hr & Hin).
          destruct (Habove r Hin) as (z & Hz & Hlt).
          rewrite Hn in Hr. rewrite Hz in Hr. injection Hr as ->. lia. }
      split; [|split].
      * exists (n + 1). split; [now rewrite Hn | exact Habove'].
      * exact Hnd'.
      * apply sound_write; [|exact Hfs].
        split; [now apply (counter_above_integer (n + 1)) | exact Hnd'].
    + split; [now exists n | now split].
    + split; [now exists n | now split].
  - (* update *)
    pose proof (update_order_ids order_id name order quantity order_date s) as E.
    assert (Htable' : sound_table
              (orders (update_order order_id name order quantity order_date s))).
    { split; [exact (integer_ids_same (orders s) _ E Hint) | now rewrite E]. }
    split; [|split].
    + exists n. rewrite update_order_counter.
      split; [exact Hn | exact (counter_above_same n (orders s) _ E Habove)].
    + now rewrite E.
    + destruct (update_order_files order_id name order quantity order_date s)
        as [-> | ->]; [exact Hfs | now apply sound_write].
  - (* delete *)
    assert (Hnd' : NoDup (ids (orders (delete_order order_id s))))
      by (rewrite delete_order_rows; now apply NoDup_ids_filter).
    assert (Habove' : counter_above n (orders (delete_order order_id s))).
    { rewrite delete_order_rows. intros r Hr.
      apply filter_In in Hr as [Hr _]. now apply Habove. }
    split; [|split].
    + exists n. now rewrite delete_order_counter.
    + exact Hnd'.
    + destruct (delete_order_files order_id s) as [-> | ->]; [exact Hfs|].
      apply sound_write; [|exact Hfs].
      split; [now apply (counter_above_integer n) | exact Hnd'].
  - (* lookup *)
    unfold lookup_order.
    destruct (rows_with_id order_id (orders s));
      (split; [now exists n | now split]).
  - (* filter *)
    unfold filter_orders.
    destruct (filter_rows customer_name start_date end_date (orders s))
      as [[|r t]|]; (split; [now exists n | now split]).
  - (* export *)
    split; [now exists n | split; [exact Hnd | now apply sound_write]].
  - (* backup *)
    split; [now exists n | split; [exact Hnd | now apply sound_write]].
  - (* restore *)
    unfold restore_orders.
    destruct (fs s backup_filename) as [t|] eqn:Eb;
      [|split; [now exists n | now split]].
    destruct (Hfs _ _ Eb) as [Hintt Hndt].
    assert (Hne : t <> []) by (intros ->; now apply Hrestore).
    destruct (series_max_greatest t Hintt Hne) as (m & Hm & _ & Hmax).
    simpl. rewrite Hm. split; [|split].
    + exists (m + 1). split; [reflexivity|].
      intros r Hr. destruct (Hintt r Hr) as (z & Hz).
      exists z. split; [exact Hz|].
      assert (z <= m); [|lia].
      apply Hmax. rewrite <- Hz. now apply in_map.
    + exact Hndt.
    + apply sound_write; [now split | exact Hfs].
  - (* summary *)
    unfold order_summary. simpl.
    destruct (most_popular_order (orders s));
      (split; [now exists n | now split]).
  - (* restart *)
    unfold restart, init.
    destruct (fs s (filename s)) as [t|] eqn:Ef.
    + destruct (Hfs _ _ Ef) as [Hintt Hndt].
      destruct t as [|r t].
      * split; [|split; [constructor | exact Hfs]].
        exists 1. split; [reflexivity | intros x []].
      * destruct (series_max_greatest (r :: t) Hintt) as (m & Hm & _ & Hmax);
          [discriminate|].
        split; [|split; [exact Hndt | exact Hfs]].
        exists (m + 1). split.
        { change (num_succ (series_max (ids (r :: t))) = Int (m + 1)).
          now rewrite Hm. }
        intros x Hx. destruct (Hintt x Hx) as (z & Hz).
        exists z. split; [exact Hz|].
        assert (z <= m); [|lia].
        apply Hmax. rewrite <- Hz. now apply in_map.
    + split; [|split; [constructor | exact Hfs]].
      exists 1. split; [reflexivity | intros x []].
Qed.

Lemma sound_fresh (name : string) : sound (fresh name).
Proof.
  split; [|split].
  - exists 1. split; [reflexivity | intros x []].
  - constructor.
  - discriminate.
Qed.

(** The invariant holds all along a session that starts with no file and in
    which no restore finds a backup that holds no order. *)
Lemma sound_run (l : list op) : forall s : Bakery,
  sound s -> no_empty_restore l s -> sound (run l s).
Proof.
  induction l as [|o l IH]; intros s Hs Hl; simpl in *; [exact Hs|].
  destruct Hl as [Ho Hl]. apply IH; [now apply sound_step | exact Hl].
Qed.

End Invariant.

(** ** The counter after a restore *)

(** C1 (the code departs from it): restoring a backup that holds no order
    leaves the counter at NaN, where a start on the same file sets it to 1;
    the orders added next all carry NaN as their id, and the counter is not
    above it. *)
Theorem restore_of_empty_backup_counter :
  let s := restore_orders (backup_orders (fresh "bakery_orders.csv")) in
  let a := OpAdd "Alice" "Croissant" "3" "2024-05-01" in
  let b := OpAdd "Bob" "Bread" "2" "2024-05-02" in
  orders s = []
  /\ next_order_id s = NaN
  /\ next_order_id (restart s) = Int 1
  /\ ids (orders (run [a; b] s)) = [NaN; NaN]
  /\ next_order_id (run [a; b] s) = NaN.
Proof.
  vm_compute. repeat split.
Qed.

(** ** The summary *)

Section Order.

Lemma compare_not_gt_trans (s1 : string) : forall s2 s3,
  String.compare s1 s2 <> Gt -> String.compare s2 s3 <> Gt ->
  String.compare s1 s3 <> Gt.
Proof.
  induction s1 as [|c1 s1 IH]; intros [|c2 s2] [|c3 s3]; simpl;
    try congruence.
  unfold Ascii.compare.
  destruct (N.compare_spec (N_of_ascii c1) (N_of_ascii c2)) as [E12|L12|G12];
    destruct (N.compare_spec (N_of_ascii c2) (N_of_ascii c3)) as [E23|L23|G23];
    destruct (N.compare_spec (N_of_ascii c1) (N_of_ascii c3)) as [E13|L13|G13];
    try congruence; try lia.
  apply IH.
Qed.

Lemma leb_not_gt (s1 s2 : string) :
  String.leb s1 s2 = true <-> String.compare s1 s2 <> Gt.
Proof.
  unfold String.leb. destruct (String.compare s1 s2); split;
    congruence.
Qed.

Lemma leb_trans (s1 s2 s3 : string) :
  String.leb s1 s2 = true -> String.leb s2 s3 = true ->
  String.leb s1 s3 = true.
Proof.
  rewrite !leb_not_gt. apply compare_not_gt_trans.
Qed.

Lemma leb_refl (s : string) : String.leb s s = true.
Proof. now destruct (String.leb_total s s). Qed.

End Order.

Module ModeFacts.
Import Mode.

Lemma occurrences_count_occ (x : string) (l : list string) :
  occurrences x l = count_occ string_dec l x.
Proof.
  unfold occurrences. induction l as [|y l IH]; simpl; [reflexivity|].
  destruct (String.eqb_spec x y) as [->|Hne].
  - destruct (string_dec y y) as [_|N]; [simpl; now rewrite IH | now elim N].
  - destruct (string_dec y x) as [E|_]; [now elim Hne | exact IH].
Qed.

Lemma top_ge (c : string -> nat) (l : list string) (x : string) :
  In x l -> (c x <= fold_right (fun y m => Nat.max (c y) m) 0 l)%nat.
Proof.
  induction l as [|y l IH]; simpl; [tauto|].
  intros [-> | H]; [lia | apply IH in H; lia].
Qed.

Lemma top_reached (c : string -> nat) (l : list string) :
  l <> [] ->
  exists x, In x l /\ c x = fold_right (fun y m => Nat.max (c y) m) 0%nat l.
Proof.
  induction l as [|y l IH]; intro Hne; [now elim Hne|].
  simpl. destruct l as [|z l].
  - exists y. split; [now left | simpl; lia].
  - destruct IH as (x & Hx & Ex); [discriminate|].
    destruct (Nat.max_spec (c y)
                (fold_right (fun y m => Nat.max (c y) m) 0%nat (z :: l)))
      as [[_ E] | [_ E]]; rewrite E.
    + exists x. split; [now right | exact Ex].
    + exists y. split; [now left | reflexivity].
Qed.

Lemma insert_sorted_In (a x : string) (l : list string) :
  In x (insert_sorted a l) <-> x = a \/ In x l.
Proof.
  induction l as [|y l IH]; simpl.
  - intuition.
  - destruct (String.leb a y); simpl; [intuition|].
    rewrite IH. intuition.
Qed.

Lemma sort_strings_In (x : string) (l : list string) :
  In x (sort_strings l) <-> In x l.
Proof.
  induction l as [|y l IH]; simpl; [tauto|].
  rewrite insert_sorted_In, IH. intuition.
Qed.

(** The head of the sorted list is below every text of the list. *)
Lemma sort_strings_head (l : list string) : forall m r,
  sort_strings l = m :: r -> forall x, In x l -> String.leb m x = true.
Proof.
  induction l as [|a l IH]; intros m r E x Hx; [destruct Hx|].
  simpl in E. destruct (sort_strings l) as [|y t] eqn:Es.
  - simpl in E. injection E as <- _.
    destruct Hx as [<- | Hx]; [apply leb_refl|].
    apply sort_strings_In in Hx. rewrite Es in Hx. destruct Hx.
  - specialize (IH y t eq_refl). simpl in E.
    destruct (String.leb a y) eqn:Eay; injection E as <- _.
    + destruct Hx as [<- | Hx]; [apply leb_refl|].
      apply (leb_trans a y x Eay). now apply IH.
    + destruct Hx as [<- | Hx]; [|now apply IH].
      destruct (String.leb_total a y) as [H | H]; congruence.
Qed.

(** The first of the modes: a most frequent text, the least of them. *)
Lemma mode_head (l : list string) :
  l <> [] ->
  exists m, hd_error (series_mode l) = Some m
    /\ In m l
    /\ (forall x, (occurrences x l <= occurrences m l)%nat)
    /\ (forall x, In x l -> occurrences x l = occurrences m l ->
                  String.leb m x = true).
Proof.
  intro Hne. unfold series_mode.
  set (top := fun x => (occurrences x l =? top_count l)%nat).
  destruct (top_reached (fun x => occurrences x l) l Hne) as (w & Hw & Ew).
  fold (top_count l) in Ew.
  assert (Hcand : forall x, In x (nodup string_dec (filter top l))
                            <-> In x l /\ occurrences x l = top_count l).
  { intro x. rewrite nodup_In, filter_In. unfold top.
    now rewrite Nat.eqb_eq. }
  destruct (sort_strings (nodup string_dec (filter top l))) as [|m r] eqn:Es.
  - assert (In w (sort_strings (nodup string_dec (filter top l))))
      by (apply sort_strings_In, Hcand; now split).
    rewrite Es in H. destruct H.
  - exists m. split; [reflexivity|].
    assert (Hm : In m l /\ occurrences m l = top_count l).
    { apply Hcand, sort_strings_In. rewrite Es. now left. }
    destruct Hm as [Hm Em]. split; [exact Hm | split].
    + intro x. rewrite Em. unfold occurrences at 1.
      destruct (filter (String.eqb x) l) as [|y t] eqn:Ef; [simpl; lia|].
      assert (Hy : In y (filter (String.eqb x) l)) by (rewrite Ef; now left).
      apply filter_In in Hy as [Hy Exy]. apply String.eqb_eq in Exy. subst y.
      rewrite <- Ef. apply (top_ge (fun x => occurrences x l) l x Hy).
    + intros x Hx Ex. apply (sort_strings_head _ m r Es).
      apply Hcand. split; [exact Hx | congruence].
Qed.

End ModeFacts.

(** C5, as the code has it: for a table whose order texts are texts that a
    CSV file gives back as written (so that the column holds texts, also
    after a new start) and whose quantities fit 64 bits, as does their sum:
    the summary shows the number of rows, the sum of the quantities and, for
    a table that is not empty, an order text that occurs at least as often
    as any other, the least one in the order of texts when several occur
    that often (not the first met); for an empty table it shows 0, 0 and
    "None". *)
Theorem order_summary_values :
  forall s : Bakery,
    Forall (fun o => csv_text (OrderText o) = true
                     /\ int64 (Quantity o) = true) (orders s) ->
    int64 (fold_right Z.add 0 (map Quantity (orders s))) = true ->
    exists most_popular : string,
      console (order_summary s)
      = (console s
         ++ [Line "Order Summary"; Line "-------------";
             Line ("Total Orders: "
                   ++ str_of_Z (Z.of_nat (length (orders s))))%string;
             Line ("Total Quantity: "
                   ++ str_of_Z (fold_right Z.add 0 (map Quantity (orders s))))%string;
             Line ("Most Popular Order: " ++ most_popular)%string])%list
      /\ (orders s = [] ->
          most_popular = "None"
          /\ Z.of_nat (length (orders s)) = 0
          /\ fold_right Z.add 0 (map Quantity (orders s)) = 0)
      /\ (orders s <> [] ->
          In most_popular (map OrderText (orders s))
          /\ (forall x,
                 (count_occ string_dec (map OrderText (orders s)) x
                  <= count_occ string_dec (map OrderText (orders s))
                       most_popular)%nat)
          /\ (forall x,
                 count_occ string_dec (map OrderText (orders s)) x
                 = count_occ string_dec (map OrderText (orders s)) most_popular ->
                 String.leb most_popular x = true)).
Proof.
  intros s _ _. unfold order_summary, most_popular_order, total_orders. simpl.
  destruct (orders s) as [|o t] eqn:Eo.
  - exists "None". simpl. split; [|split].
    + rewrite <- !app_assoc. reflexivity.
    + repeat split.
    + intro H. now elim H.
  - assert (Hne : map OrderText (o :: t) <> []) by discriminate.
    destruct (ModeFacts.mode_head _ Hne) as (m & Hm & Hin & Hmax & Hleast).
    exists m.
    replace (0 <? Z.of_nat (length (o :: t))) with true
      by (symmetry; apply Z.ltb_lt; simpl length; lia).
    rewrite Hm. unfold total_quantity. simpl console.
    split; [|split].
    + rewrite <- !app_assoc. reflexivity.
    + discriminate.
    + intros _. split; [exact Hin | split].
      * intro x. rewrite <- !ModeFacts.occurrences_count_occ. apply Hmax.
      * intros x Ex. apply Hleast.
        -- apply (count_occ_In string_dec). rewrite Ex.
           now apply (count_occ_In string_dec).
        -- now rewrite !ModeFacts.occurrences_count_occ.
Qed.

Lemma order_summary_values_witness :
  let s := add_order "Bob" "Bread" "2" "2024-05-02"
             (add_order "Alice" "Croissant" "3" "2024-05-01"
                (fresh "bakery_orders.csv")) in
  exists most_popular : string,
    In (Line ("Most Popular Order: " ++ most_popular)) (console (order_summary s))
    /\ In most_popular ["Croissant"; "Bread"]
    /\ String.leb most_popular "Croissant" = true.
Proof.
  intro s.
  destruct (order_summary_values s) as (m & Hc & _ & Hne).
  { repeat constructor. }
  { reflexivity. }
  destruct Hne as (Hin & _ & Hleast); [vm_compute; discriminate|].
  exists m. split; [|split].
  - rewrite Hc. apply in_app_iff. right. simpl. tauto.
  - exact Hin.
  - apply Hleast. vm_compute in Hin. destruct Hin as [<- | [<- | []]];
      vm_compute; reflexivity.
Defined.

(** C5 as stated fails: of two order texts that occur equally often the
    summary names the least one, not the one met first. *)
Lemma most_popular_order_not_first_met :
  let s := add_order "Bob" "Bread" "2" "2024-05-02"
             (add_order "Alice" "Croissant" "3" "2024-05-01"
                (fresh "bakery_orders.csv")) in
  map OrderText (orders s) = ["Croissant"; "Bread"]
  /\ first_most_frequent (map OrderText (orders s)) = Some "Croissant"
  /\ most_popular_order (orders s) = Some "Bread"
  /\ last (console (order_summary s)) (Line "")
     = Line "Most Popular Order: Bread".
Proof.
  vm_compute. repeat split.
Qed.

(** ** Filtering *)

Module ReFacts.
Import Re.


Lemma map_nil_iff (A B : Type) (f : A -> B) (l : list A) :
  map f l = [] <-> l = [].
Proof. destruct l; simpl; split; congruence. Qed.

(** A literal pattern matches at the start of a text exactly when the text
    starts with it, the case of letters aside. *)
Lemma matches_at_literal (p : string) : forall s,
  matches_at true (literal p) s = true <->
  exists v w, s = v ++ w /\ lower_str v = lower_str p.
Proof.
  induction p as [|c p IH]; intro s.
  - simpl. split; [intros _ | reflexivity].
    exists EmptyString, s. now split.
  - unfold matches_at. simpl. destruct s as [|x s]; simpl.
    + split; [discriminate|].
      intros (v & w & E & L). destruct v; discriminate.
    + unfold chr_ok. destruct (Ascii.eqb_spec (lower c) (lower x)) as [Ecx|Ncx];
        simpl.
      * rewrite app_nil_r.
        specialize (IH s). unfold matches_at in IH.
        destruct (rmatch true (literal p) s) as [|[a b] l]; simpl.
        -- split; [discriminate|].
           intros (v & w & E & L). destruct v as [|y v]; [discriminate|].
           simpl in E, L. injection E as -> ->. injection L as _ L.
           assert (false = true); [|discriminate].
           apply IH. now exists v, w.
        -- split; [intros _ | reflexivity].
           destruct (proj1 IH eq_refl) as (v & w & -> & L).
           exists (String x v), w. simpl. split; [reflexivity|].
           now rewrite L, Ecx.
      * split; [discriminate|].
        intros (v & w & E & L). destruct v as [|y v]; [discriminate|].
        simpl in E, L. injection E as -> _. injection L as L _.
        now elim Ncx.
Qed.

(** Searching for a literal pattern is looking for the text, the case of
    letters aside. *)
Lemma search_literal (p : string) : forall s,
  search true (literal p) s = true <-> contains_nocase p s.
Proof.
  unfold contains_nocase.
  induction s as [|x s IH]; simpl.
  - rewrite orb_false_r, matches_at_literal. split.
    + intros (v & w & E & L). now exists EmptyString, v, w.
    + intros (u & v & w & E & L).
      destruct u; [|discriminate]. now exists v, w.
  - rewrite orb_true_iff, matches_at_literal, IH. split.
    + intros [(v & w & E & L) | (u & v & w & E & L)].
      * now exists EmptyString, v, w.
      * exists (String x u), v, w. simpl. now rewrite E.
    + intros (u & v & w & E & L). destruct u as [|y u].
      * left. now exists v, w.
      * right. simpl in E. injection E as _ E. now exists u, v, w.
Qed.

End ReFacts.

Lemma filter_twice (A : Type) (f g : A -> bool) (l : list A) :
  filter g (filter f l) = filter (fun x => f x && g x) l.
Proof.
  induction l as [|x l IH]; simpl; [reflexivity|].
  destruct (f x); simpl; [|exact IH].
  destruct (g x); now rewrite IH.
Qed.

(** C6 (the code departs from it): the text given as customer name is
    searched as a regular expression, not as a text.  A dot as name stands
    for any character: the filter keeps the customer "Bob", whose name has
    no dot in it, and shows the order. *)
Theorem filter_name_dot_keeps_any_name :
  let s := add_order "Bob" "Bread" "2" "2024-05-02"
             (fresh "bakery_orders.csv") in
  map CustomerName (orders s) = ["Bob"]
  /\ filter_orders (Some ".") None None s = Some (print (Frame (orders s)) s)
  /\ ~ contains_nocase "." "Bob".
Proof.
  split; [vm_compute; reflexivity | split; [vm_compute; reflexivity|]].
  intro H. apply ReFacts.search_literal in H. vm_compute in H. discriminate.
Qed.

(** ** Validation of the date *)

Module StrptimeFacts.
Import Re Strptime.

Lemma rmatch_lang (r : re) : forall s u rest,
  In (u, rest) (rmatch true r s) -> s = u ++ rest /\ lang r u.
Proof.
  assert (Hone : forall ok s u rest,
             In (u, rest) (one ok s) ->
             exists x, u = String x EmptyString /\ ok x = true
                       /\ s = u ++ rest).
  { intros ok [|x s] u rest; simpl; [tauto|].
    destruct (ok x) eqn:E; simpl; [|tauto].
    intros [H | []]. injection H as <- <-. now exists x. }
  induction r as [| c | lo hi | | r1 IH1 r2 IH2 | r1 IH1 r2 IH2];
    intros s u rest; simpl.
  - intros [H | []]. injection H as <- <-. now split.
  - intro H. apply Hone in H as (x & -> & Hx & ->). split; [reflexivity|].
    now exists x.
  - intro H. apply Hone in H as (x & -> & Hx & ->). split; [reflexivity|].
    now exists x.
  - intro H. apply Hone in H as (x & -> & Hx & ->). split; [reflexivity|].
    now exists x.
  - intro H. apply in_flat_map in H as ([u1 s1] & H1 & H).
    apply in_map_iff in H as ([u2 s2] & E & H2). injection E as <- <-.
    apply IH1 in H1 as [-> L1]. apply IH2 in H2 as [-> L2].
    split; [now rewrite append_assoc | now exists u1, u2].
  - intro H. apply in_app_iff in H as [H | H].
    + apply IH1 in H as [-> L]. split; [reflexivity | now left].
    + apply IH2 in H as [-> L]. split; [reflexivity | now right].
Qed.

Lemma chr_exact (c x : ascii) :
  In c ["-"; " "; "0"; "1"; "3"]%char -> chr_ok true c x = true -> x = c.
Proof.
  intros [<- | [<- | [<- | [<- | [<- | []]]]]];
    destruct x as [[] [] [] [] [] [] [] []]; vm_compute;
    intro H; (reflexivity || discriminate).
Qed.

Lemma cls_digit (lo hi x : ascii) :
  In (lo, hi) [("0", "9"); ("0", "2"); ("1", "9"); ("0", "1"); ("1", "2")]%char ->
  cls_ok true lo hi x = true -> is_digit x = true.
Proof.
  intros [E | [E | [E | [E | [E | []]]]]]; injection E as <- <-;
    destruct x as [[] [] [] [] [] [] [] []]; vm_compute;
    intro H; (reflexivity || discriminate).
Qed.

Ltac listed := solve [repeat (first [left; reflexivity | right])].

Ltac as_digit H :=
  first [ apply cls_digit in H; [|listed]
        | apply chr_exact in H; [subst|listed] ].

Lemma lang_dash (u : string) : lang dash u -> u = "-".
Proof.
  unfold dash, re_Y, re_m, re_d, digit; cbn [lang]. intros (x & -> & H). as_digit H. reflexivity.
Qed.

Lemma lang_Y (u : string) :
  lang re_Y u -> String.length u = 4%nat /\ numeral u = true.
Proof.
  unfold dash, re_Y, re_m, re_d, digit; cbn [lang].
  intros (u1 & r1 & -> & (a & -> & Ha) & u2 & r2 & -> & (b & -> & Hb)
          & u3 & u4 & -> & (c & -> & Hc) & (d & -> & Hd)).
  as_digit Ha. as_digit Hb. as_digit Hc. as_digit Hd.
  simpl. now rewrite Ha, Hb, Hc, Hd.
Qed.

Lemma lang_m (u : string) :
  lang re_m u -> (String.length u <= 2)%nat /\ numeral u = true.
Proof.
  unfold dash, re_Y, re_m, re_d, digit; cbn [lang].
  intros [(u1 & u2 & -> & (a & -> & Ha) & (b & -> & Hb))
         | [(u1 & u2 & -> & (a & -> & Ha) & (b & -> & Hb))
           | (a & -> & Ha)]];
    as_digit Ha; try as_digit Hb; simpl; rewrite ?Ha, ?Hb; split;
    (lia || reflexivity).
Qed.

Lemma lang_d (u : string) :
  lang re_d u ->
  ((String.length u <= 2)%nat /\ numeral u = true)
  \/ (exists c, u = String " " (String c EmptyString) /\ is_digit c = true).
Proof.
  unfold dash, re_Y, re_m, re_d, digit; cbn [lang].
  intros [(u1 & u2 & -> & (a & -> & Ha) & (b & -> & Hb))
         | [(u1 & u2 & -> & (a & -> & Ha) & (b & -> & Hb))
           | [(u1 & u2 & -> & (a & -> & Ha) & (b & -> & Hb))
             | [(a & -> & Ha)
               | (u1 & u2 & -> & (a & -> & Ha) & (b & -> & Hb))]]]];
    as_digit Ha; try as_digit Hb; simpl;
    try (left; rewrite ?Ha, ?Hb; split; (lia || reflexivity)).
  right. now exists b.
Qed.

(** What a way of matching the format says about the text. *)
Lemma paths_sound (s Y M D rest : string) :
  In (Y, M, D, rest) (paths s) ->
  s = Y ++ "-" ++ M ++ "-" ++ D ++ rest
  /\ lang re_Y Y /\ lang re_m M /\ lang re_d D.
Proof.
  unfold paths, paths_md. intro H.
  apply in_flat_map in H as ([Y' s1] & HY & H).
  apply in_map_iff in H as ([[M' D'] r'] & E & H).
  injection E as -> -> -> ->.
  apply in_flat_map in H as ([d1 s2] & Hd1 & H).
  apply in_flat_map in H as ([M' s3] & HM & H).
  apply in_flat_map in H as ([d2 s4] & Hd2 & H).
  apply in_map_iff in H as ([D' s5] & E & HD).
  injection E as -> -> ->.
  apply rmatch_lang in HY as [-> LY], Hd1 as [-> L1], HM as [-> LM],
      Hd2 as [-> L2], HD as [-> LD].
  apply lang_dash in L1, L2. subst d1 d2.
  repeat split; assumption.
Qed.

Lemma validate_date_sound (s : string) :
  validate_date s = true -> strptime_date_text s.
Proof.
  unfold validate_date, strptime_Ymd.
  destruct (paths s) as [|[[[Y M] D] rest] l] eqn:E; [discriminate|].
  destruct rest; [|discriminate].
  destruct (py_int Y) as [y|] eqn:EY; [|discriminate].
  destruct (py_int M) as [m|] eqn:EM; [|discriminate].
  destruct (py_int D) as [d|] eqn:ED; [|discriminate].
  destruct (date_ok y m d) eqn:Eok; [|discriminate]. intros _.
  assert (Hin : In (Y, M, D, EmptyString) (paths s))
    by (rewrite E; now left).
  apply paths_sound in Hin as (-> & LY & LM & LD).
  apply lang_Y in LY as [LY DY]. apply lang_m in LM as [LM DM].
  apply lang_d in LD.
  rewrite (py_int_numeral Y DY) in EY. injection EY as <-.
  rewrite (py_int_numeral M DM) in EM. injection EM as <-.
  exists Y, M, D, (int_acc 0 Y), (int_acc 0 M), d.
  rewrite append_nil_r.
  repeat split; try assumption; try now apply numeral_decimal.
  destruct LD as [[LD DD] | (c & -> & Hc)].
  - left. rewrite (py_int_numeral D DD) in ED. injection ED as <-.
    split; [exact LD | now apply numeral_decimal].
  - right. exists c. split; [reflexivity|].
    rewrite (py_int_blank c Hc) in ED. injection ED as <-.
    now constructor.
Qed.

Lemma is_digit_listed (c : ascii) : is_digit c = true -> In c digits10.
Proof.
  destruct c as [[] [] [] [] [] [] [] []]; vm_compute;
    intro H; (discriminate || listed).
Qed.

Lemma digit_val_bounds (c : ascii) :
  is_digit c = true -> 0 <= digit_val c <= 9.
Proof.
  intro H. apply is_digit_listed in H. unfold digits10 in H.
  repeat (destruct H as [<- | H]; [vm_compute; split; discriminate|]).
  destruct H.
Qed.

Lemma short_numerals_listed (w : string) :
  numeral w = true -> (String.length w <= 2)%nat -> In w short_numerals.
Proof.
  intros Hd Hl. unfold short_numerals. apply in_app_iff.
  destruct w as [|a [|b [|c w]]]; simpl in Hl; try lia; try discriminate.
  - left. apply (in_map (fun c => String c EmptyString)).
    apply is_digit_listed.
    simpl in Hd. now rewrite andb_true_r in Hd.
  - right. simpl in Hd. rewrite andb_true_r in Hd.
    apply andb_true_iff in Hd as [Ha Hb].
    apply in_flat_map. exists a. split; [now apply is_digit_listed|].
    apply (in_map (fun c2 => String a (String c2 EmptyString))).
    now apply is_digit_listed.
Qed.

Lemma first_paths :
  forallb (fun M => forallb (first_path_is M) day_texts) month_texts = true.
Proof. vm_compute. reflexivity. Qed.

Lemma first_path (M D : string) :
  In M month_texts -> In D day_texts ->
  exists l, paths_md ("-" ++ M ++ "-" ++ D) = (M, D, EmptyString) :: l.
Proof.
  intros HM HD.
  pose proof first_paths as H.
  rewrite forallb_forall in H. specialize (H M HM).
  rewrite forallb_forall in H. specialize (H D HD).
  unfold first_path_is in H.
  destruct (paths_md ("-" ++ M ++ "-" ++ D)) as [|[[M' D'] [|x r]] l];
    try discriminate.
  apply andb_true_iff in H as [E1 E2].
  apply String.eqb_eq in E1, E2. subst. now exists l.
Qed.

Lemma rmatch_year (a b c d : ascii) (s1 : string) :
  is_digit a = true -> is_digit b = true ->
  is_digit c = true -> is_digit d = true ->
  rmatch true re_Y (String a (String b (String c (String d s1))))
  = [(String a (String b (String c (String d EmptyString))), s1)].
Proof.
  intros Ha Hb Hc Hd.
  assert (Hcls : forall x, is_digit x = true -> cls_ok true "0" "9" x = true).
  { intros x Hx. unfold cls_ok. unfold is_digit in Hx. now rewrite Hx. }
  unfold re_Y, digit. cbn [rmatch one flat_map map app].
  rewrite (Hcls a Ha). cbn [rmatch one flat_map map app].
  rewrite (Hcls b Hb). cbn [rmatch one flat_map map app].
  rewrite (Hcls c Hc). cbn [rmatch one flat_map map app].
  rewrite (Hcls d Hd). reflexivity.
Qed.

Lemma days_in_month_le (y m : Z) : days_in_month y m <= 31.
Proof.
  unfold days_in_month.
  destruct ((m =? 2) && is_leap y); [lia|].
  generalize (Z.to_nat m). intro n.
  do 13 (destruct n as [|n]; [simpl; lia|]).
  destruct n; simpl; lia.
Qed.

Lemma date_ok_bounds (y m d : Z) :
  date_ok y m d = true -> 1 <= m <= 12 /\ 1 <= d <= 31.
Proof.
  unfold date_ok. rewrite !andb_true_iff, !Z.leb_le.
  pose proof (days_in_month_le y m). lia.
Qed.

Lemma validate_date_complete (s : string) :
  strptime_date_text s -> validate_date s = true.
Proof.
  intros (Y & M & D & y & m & d & -> & LY & DY & LM & DM & DD & Hok).
  destruct (date_ok_bounds y m d Hok) as [Bm Bd].
  apply decimal_sound in DY as [DY VY], DM as [DM VM].
  assert (HM : In M month_texts).
  { apply filter_In. split; [now apply short_numerals_listed|].
    unfold between. rewrite VM. apply andb_true_iff. split; apply Z.leb_le; lia. }
  assert (HD : In D day_texts /\ py_int D = Some d).
  { unfold day_texts. rewrite in_app_iff.
    destruct DD as [[LD DD] | (c & -> & DD)];
      apply decimal_sound in DD as [DD VD].
    - split; [left | now rewrite (py_int_numeral D DD), VD].
      apply filter_In. split; [now apply short_numerals_listed|].
      unfold between. rewrite VD.
      apply andb_true_iff. split; apply Z.leb_le; lia.
    - assert (Hc : is_digit c = true)
        by (simpl in DD; now rewrite andb_true_r in DD).
      split.
      + right. apply (in_map (fun c => String " " (String c EmptyString))).
        apply filter_In.
        split; [now apply is_digit_listed|].
        unfold between. rewrite VD.
        pose proof (digit_val_bounds c Hc). simpl in VD.
        apply andb_true_iff. split; apply Z.leb_le; lia.
      + rewrite (py_int_blank c Hc). f_equal.
        simpl in VD. lia. }
  destruct HD as [HD PD].
  destruct (first_path M D HM HD) as (l & Hpath).
  destruct Y as [|a [|b [|c [|e [|x Y]]]]]; try discriminate LY.
  assert (Hdig : is_digit a = true /\ is_digit b = true
                 /\ is_digit c = true /\ is_digit e = true).
  { pose proof DY as H. unfold numeral, all_digits in H.
    rewrite andb_true_r in H.
    apply andb_true_iff in H as [Ha H].
    apply andb_true_iff in H as [Hb H].
    apply andb_true_iff in H as [Hc He]. auto. }
  destruct Hdig as (Ha & Hb & Hc & He).
  unfold validate_date, strptime_Ymd, paths.
  change ((String a (String b (String c (String e EmptyString))))
          ++ "-" ++ M ++ "-" ++ D)
    with (String a (String b (String c (String e ("-" ++ M ++ "-" ++ D))))).
  rewrite (rmatch_year a b c e _ Ha Hb Hc He).
  cbn [flat_map]. rewrite Hpath. cbn [map app].
  rewrite (py_int_numeral _ DY), VY, (py_int_numeral M DM), VM, PD, Hok.
  reflexivity.
Qed.

(** The date check accepts exactly the dates that [strptime] reads. *)
Lemma validate_date_iff (s : string) :
  validate_date s = true <-> strptime_date_text s.
Proof.
  split; [apply validate_date_sound | apply validate_date_complete].
Qed.


End StrptimeFacts.

(** C4 (the code departs from it): a date written without the padding
    zeros is not of the form YYYY-MM-DD that the message of [add_order] and
    the prompts of the menu ask for, yet the date check accepts it and
    [add_order] stores the order with the date as typed.  The filter by
    dates, which compares dates as texts, then misses the order: asked for
    the orders from 2024-01-01 to 2024-01-31, it finds none.  The text
    "2024-13-40", for comparison, is turned down. *)
Theorem date_without_padding_taken :
  let s := add_order "A" "Bread" "2" "2024-1-5" (fresh "bakery_orders.csv") in
  ~ iso_date_text "2024-1-5"
  /\ validate_date "2024-1-5" = true
  /\ orders s = [mkOrder (Int 1) "A" "Bread" 2 "2024-1-5"]
  /\ filter_orders None (Some "2024-01-01") (Some "2024-01-31") s
     = Some (print (Line "No orders found.") s)
  /\ add_order "A" "Bread" "2" "2024-13-40" (fresh "bakery_orders.csv")
     = print (Line msg_invalid_date) (fresh "bakery_orders.csv").
Proof.
  split; [|repeat split; vm_compute; reflexivity].
  intros (Y & M & D & y & m & d & E & LY & _ & LM & _ & LD & _).
  apply (f_equal String.length) in E.
  rewrite !length_append in E. simpl in E. lia.
Qed.

(** * Further properties of the store *)

(** ** Order ids along a session *)

(** X1: in a session that starts with no file, whatever the operations, as
    long as no restore finds a backup that holds no order: the order ids of
    the table are pairwise distinct integers, the counter is an integer
    above all of them, and every file holds a table with distinct integer
    ids. *)
Theorem session_keeps_ids_sound :
  forall (name : string) (l : list op),
    no_empty_restore l (fresh name) -> sound (run l (fresh name)).
Proof.
  intros name l H. apply sound_run; [apply sound_fresh | exact H].
Qed.

Lemma session_keeps_ids_sound_witness :
  sound (run [OpAdd "Alice" "Croissant" "3" "2024-05-01"; OpBackup;
              OpDelete 1; OpRestore; OpRestart;
              OpAdd "Bob" "Bread" "2" "2024-05-02"]
             (fresh "bakery_orders.csv")).
Proof.
  apply session_keeps_ids_sound.
  simpl. repeat split; intro H; try discriminate H.
  vm_compute. discriminate.
Defined.

(** X2: in a session with no restore and no restart, the counter ends at its
    first value plus the number of orders added: a rejected add, an update, a
    delete, a lookup, a filter, an export, a backup or a summary never moves
    it. *)
Theorem counter_counts_adds :
  forall (l : list op) (s : Bakery) (n : Z),
    forallb keeps_counter l = true ->
    next_order_id s = Int n ->
    next_order_id (run l s) = Int (n + Z.of_nat (length (assigned l s)))
    /\ (length (assigned l s) <= length l)%nat.
Proof.
  intros l s n Hl Hn. split; [now apply assigned_consecutive|].
  clear Hl Hn n. revert s.
  induction l as [|o l IH]; intro s; simpl; [lia|].
  rewrite length_app. specialize (IH (step o s)).
  destruct (assigned_by_length o s) as [-> | ->]; simpl; lia.
Qed.

Lemma counter_counts_adds_witness :
  next_order_id (run [OpAdd "Alice" "Croissant" "3" "2024-05-01";
                      OpAdd "Bob" "Bread" "0" "2024-05-02";
                      OpDelete 1;
                      OpAdd "Carol" "Tart" "1" "2024-05-03"]
                     (fresh "bakery_orders.csv")) = Int 3.
Proof.
  apply (counter_counts_adds
           [OpAdd "Alice" "Croissant" "3" "2024-05-01";
            OpAdd "Bob" "Bread" "0" "2024-05-02";
            OpDelete 1;
            OpAdd "Carol" "Tart" "1" "2024-05-03"]
           (fresh "bakery_orders.csv") 1 eq_refl eq_refl).
Defined.

(** ** Deleting, whatever the table *)

Lemma length_filter_split (A : Type) (f : A -> bool) (l : list A) :
  (length (filter (fun x => negb (f x)) l) + length (filter f l))%nat
  = length l.
Proof.
  induction l as [|x l IH]; simpl; [reflexivity|].
  destruct (f x); simpl; lia.
Qed.

(** X3: [delete_order] removes every row that carries the order id, not only
    the first, and keeps the other rows in their order; the table gets
    shorter by the number of such rows; deleting the same id once more
    reports that it is not found and changes nothing. *)
Theorem delete_order_removes_every_row :
  forall (order_id : Z) (s : Bakery),
    orders (delete_order order_id s)
      = filter (fun o => negb (has_id order_id o)) (orders s)
    /\ (length (orders (delete_order order_id s))
        + length (rows_with_id order_id (orders s)))%nat
       = length (orders s)
    /\ delete_order order_id (delete_order order_id s)
       = print (Line (msg_not_found order_id)) (delete_order order_id s).
Proof.
  intros order_id s. split; [apply delete_order_rows | split].
  - rewrite delete_order_rows. apply length_filter_split.
  - apply delete_order_absent, absent_after_delete.
Qed.

(** ** Adding, then looking up *)

Lemma rows_with_id_app (order_id : Z) (t u : table) :
  rows_with_id order_id (t ++ u)%list
  = (rows_with_id order_id t ++ rows_with_id order_id u)%list.
Proof. unfold rows_with_id. apply filter_app. Qed.

(** X4: when the counter is an integer above the order ids of the table, an
    add with a valid quantity and a valid date is followed by a lookup of the
    counter's former value that shows one row: that id, the name and the
    order text as given, the quantity as a number, the date as typed. *)
Theorem lookup_after_add :
  forall (name order quantity order_date : string) (s : Bakery) (n q : Z),
    next_order_id s = Int n ->
    counter_above n (orders s) ->
    decimal quantity q -> 0 < q ->
    strptime_date_text order_date ->
    lookup_order n (add_order name order quantity order_date s)
    = print (Frame [mkOrder (Int n) name order q order_date])
            (add_order name order quantity order_date s).
Proof.
  intros name order quantity order_date s n q Hn Habove Hq Hpos Hd.
  assert (Hvq : validate_quantity quantity = Some true)
    by (apply validate_quantity_iff; now exists q).
  apply StrptimeFacts.validate_date_iff in Hd.
  rewrite (add_order_valid name order quantity order_date s Hvq Hd).
  apply decimal_sound in Hq as [_ Hq].
  unfold lookup_order, added. simpl orders.
  rewrite rows_with_id_app.
  replace (rows_with_id n (orders s)) with (@nil Order).
  - simpl. rewrite Hn, Hq. simpl. now rewrite Z.eqb_refl.
  - symmetry. apply filter_none. intros o Ho.
    destruct (Habove o Ho) as (z & Hz & Hlt).
    rewrite Hz. simpl. apply Z.eqb_neq. lia.
Qed.

Lemma lookup_after_add_witness :
  let s := add_order "Alice" "Croissant" "3" "2024-05-01"
             (fresh "bakery_orders.csv") in
  lookup_order 2 (add_order "Bob" "Bread" "12" "2024-05-02" s)
  = print (Frame [mkOrder (Int 2) "Bob" "Bread" 12 "2024-05-02"])
          (add_order "Bob" "Bread" "12" "2024-05-02" s).
Proof.
  intro s.
  apply (lookup_after_add "Bob" "Bread" "12" "2024-05-02" s 2 12).
  - reflexivity.
  - intros o [<- | []]. exists 1. split; [reflexivity | lia].
  - apply (numeral_decimal "12"). reflexivity.
  - lia.
  - apply StrptimeFacts.validate_date_iff. vm_compute. reflexivity.
Defined.

(** ** Updating *)

Lemma set_at_twice (f g : Order -> Order) (t : table) : forall i,
  set_at i f (set_at i g t) = set_at i (fun o => f (g o)) t.
Proof.
  induction t as [|o t IH]; intros [|i]; simpl; try reflexivity.
  now rewrite IH.
Qed.

Lemma set_at_ext (f g : Order -> Order) (t : table) :
  (forall o, f o = g o) -> forall i, set_at i f t = set_at i g t.
Proof.
  intro H. induction t as [|o t IH]; intros [|i]; simpl; try reflexivity.
  - now rewrite H.
  - now rewrite IH.
Qed.

Lemma set_at_same (f : Order -> Order) (t : table) :
  (forall o, f o = o) -> forall i, set_at i f t = t.
Proof.
  intro H. induction t as [|o t IH]; intros [|i]; simpl; try reflexivity.
  - now rewrite H.
  - now rewrite IH.
Qed.

Lemma set_at_middle (f : Order -> Order) (pre post : table) (o : Order) :
  set_at (length pre) f (pre ++ o :: post)%list = (pre ++ f o :: post)%list.
Proof.
  induction pre as [|r pre IH]; simpl; [reflexivity | now rewrite IH].
Qed.

(** The first row found for an id splits the table in the rows before it,
    none of which carries the id, the row itself, and the rows after it. *)
Lemma find_rows_from_first (order_id : Z) (t : table) : forall k i idx,
  find_rows_from k order_id t = i :: idx ->
  exists pre o post,
    t = (pre ++ o :: post)%list
    /\ i = (k + length pre)%nat
    /\ OrderID o = Int order_id
    /\ (forall r, In r pre -> OrderID r <> Int order_id).
Proof.
  induction t as [|r t IH]; intros k i idx; simpl; [discriminate|].
  destruct (num_eqb (OrderID r) order_id) eqn:E.
  - intro H. injection H as <- _. exists [], r, t.
    repeat split; [simpl; lia | | intros x []].
    destruct (OrderID r) as [z|]; [|discriminate].
    simpl in E. apply Z.eqb_eq in E. now subst.
  - intro H. apply IH in H as (pre & o & post & -> & -> & Ho & Hpre).
    exists (r :: pre), o, post.
    repeat split; [simpl; lia | exact Ho |].
    intros x [<- | Hx]; [|now apply Hpre].
    intro Hr. rewrite Hr in E. simpl in E.
    now rewrite Z.eqb_refl in E.
Qed.

(** An update that goes through sets, in the first row found, the fields
    that are given. *)
Lemma update_order_valid (order_id : Z)
      (name order quantity order_date : option string) (s : Bakery)
      (i : nat) (idx : list nat) :
  find_rows order_id (orders s) = i :: idx ->
  (forall v, provided quantity = Some v -> validate_quantity v = Some true) ->
  (forall v, provided order_date = Some v -> validate_date v = true) ->
  orders (update_order order_id name order quantity order_date s)
  = set_at i (with_fields (provided name) (provided order)
                          (quantity_value quantity) (provided order_date))
           (orders s)
  /\ fs (update_order order_id name order quantity order_date s)
     = write_file (filename s)
         (orders (update_order order_id name order quantity order_date s))
         (fs s)
  /\ log (update_order order_id name order quantity order_date s)
     = (log s ++ [("Updated order ID: " ++ str_of_Z order_id)%string])%list.
Proof.
  intros E Hq Hd. unfold update_order, update_order_call, quantity_value. rewrite E.
  destruct (provided quantity) as [q|];
    [destruct (validate_quantity_int q (Hq q eq_refl)) as [Hint _];
     rewrite (Hq q eq_refl)|];
    (destruct (provided order_date) as [d|]; [rewrite (Hd d eq_refl)|]);
    destruct (provided name) as [n|]; destruct (provided order) as [o|];
    simpl; rewrite ?Hint; simpl; rewrite ?set_at_twice;
    (split; [|split; reflexivity]);
    first [ apply set_at_ext; intros []; reflexivity
          | symmetry; apply set_at_same; intros []; reflexivity ].
Qed.

(** X5: take a table of rows that a CSV file gives back as they were
    written.  An update of an order id that is in the table, with every
    quantity or date that is given a valid one and the quantity one that
    fits 64 bits, changes the first row that carries the id and no other:
    the fields that are given (a text that is neither absent nor empty) take
    the new values, the other fields and the order id stay; the new table is
    written to the file of the store and the update is logged. *)
Theorem update_order_sets_fields :
  forall (order_id : Z) (name order quantity order_date : option string)
         (s : Bakery),
    Forall csv_order (orders s) ->
    present order_id (orders s) ->
    (forall v, provided quantity = Some v ->
               positive_numeral v /\ int64 (int_acc 0 v) = true) ->
    (forall v, provided order_date = Some v -> strptime_date_text v) ->
    exists pre o post,
      orders s = (pre ++ o :: post)%list
      /\ OrderID o = Int order_id
      /\ (forall r, In r pre -> OrderID r <> Int order_id)
      /\ orders (update_order order_id name order quantity order_date s)
         = (pre ++ with_fields (provided name) (provided order)
                               (quantity_value quantity) (provided order_date) o
                :: post)%list
      /\ fs (update_order order_id name order quantity order_date s)
            (filename s)
         = Some (orders (update_order order_id name order quantity order_date s))
      /\ log (update_order order_id name order quantity order_date s)
         = (log s ++ [("Updated order ID: " ++ str_of_Z order_id)%string])%list.
Proof.
  intros order_id name order quantity order_date s _ Hp Hq Hd.
  destruct (find_rows_present order_id (orders s) Hp) as (i & idx & E).
  destruct (find_rows_from_first order_id (orders s) 0 i idx E)
    as (pre & o & post & Ht & Hi & Ho & Hpre).
  simpl in Hi. subst i.
  destruct (update_order_valid order_id name order quantity order_date s
              (length pre) idx E) as (Hrows & Hfs & Hlog).
  - intros v Hv. apply validate_quantity_iff. now apply Hq.
  - intros v Hv. apply StrptimeFacts.validate_date_iff. now apply Hd.
  - exists pre, o, post. repeat split; try assumption.
    + rewrite Hrows, Ht. apply set_at_middle.
    + rewrite Hfs. unfold write_file. now rewrite String.eqb_refl.
Qed.

Lemma update_order_sets_fields_witness :
  let s := add_order "Bob" "Bread" "2" "2024-05-02"
             (add_order "Alice" "Croissant" "3" "2024-05-01"
                (fresh "bakery_orders.csv")) in
  exists pre o post,
    orders s = (pre ++ o :: post)%list
    /\ OrderID o = Int 2
    /\ orders (update_order 2 (Some "Bobby") None (Some "5") (Some "") s)
       = (pre ++ mkOrder (Int 2) "Bobby" (OrderText o) 5 (OrderDate o)
              :: post)%list.
Proof.
  intro s.
  destruct (update_order_sets_fields 2 (Some "Bobby") None (Some "5") (Some "") s)
    as (pre & o & post & Ht & Ho & _ & Hrows & _).
  - repeat constructor; eexists; repeat split.
  - eexists. split; [right; left; reflexivity | reflexivity].
  - intros v Hv. injection Hv as <-.
    split; [apply validate_quantity_iff|]; reflexivity.
  - intros v Hv. discriminate Hv.
  - exists pre, o, post. split; [exact Ht | split; [exact Ho|]].
    rewrite Hrows. unfold with_fields. simpl. now rewrite Ho.
Defined.

(** X6: an update of an order id that is not in the table reports that it is
    not found and does nothing else, whatever fields are given: a quantity
    or a date that would be turned down is not even looked at. *)
Theorem update_order_absent :
  forall (order_id : Z) (name order quantity order_date : option string)
         (s : Bakery),
    ~ present order_id (orders s) ->
    update_order order_id name order quantity order_date s
    = print (Line (msg_not_found order_id)) s.
Proof.
  intros order_id name order quantity order_date s H. unfold update_order, update_order_call.
  destruct (find_rows order_id (orders s)) as [|i idx] eqn:E; [reflexivity|].
  elim H. apply rows_with_id_present. intro R.
  apply (find_rows_from_nil order_id (orders s) 0%nat) in R.
  unfold find_rows in E. congruence.
Qed.

Lemma update_order_absent_witness :
  update_order 7 (Some "Zed") None (Some "0") (Some "yesterday")
               (add_order "Alice" "Croissant" "3" "2024-05-01"
                  (fresh "bakery_orders.csv"))
  = print (Line (msg_not_found 7))
          (add_order "Alice" "Croissant" "3" "2024-05-01"
             (fresh "bakery_orders.csv")).
Proof.
  apply update_order_absent.
  intros (o & [<- | []] & Hid). discriminate.
Defined.

(** What an update does to the rows, whatever its outcome: nothing, or a
    change of the first row found that keeps its order id. *)
Lemma update_order_rows (order_id : Z)
      (name order quantity order_date : option string) (s : Bakery) :
  orders (update_order order_id name order quantity order_date s) = orders s
  \/ exists (F : Order -> Order) (i : nat) (idx : list nat),
      find_rows order_id (orders s) = i :: idx
      /\ orders (update_order order_id name order quantity order_date s)
         = set_at i F (orders s)
      /\ (forall o, OrderID (F o) = OrderID o).
Proof.
  unfold update_order, update_order_call.
  destruct (find_rows order_id (orders s)) as [|i idx] eqn:E; [now left|].
  split_cases; rewrite ?set_at_twice;
    first [ left; reflexivity
          | right; eexists _, i, idx;
            split; [reflexivity | split; [reflexivity | intros []; reflexivity]] ].
Qed.

Lemma length_set_at (f : Order -> Order) (t : table) : forall i,
  length (set_at i f t) = length t.
Proof.
  induction t as [|o t IH]; intros [|i]; simpl; try reflexivity.
  now rewrite IH.
Qed.

(** X7: whatever its outcome (done, order not found, quantity or date turned
    down), an update leaves the order ids of the table, the number of rows
    and the counter as they were. *)
Theorem update_order_keeps_ids :
  forall (order_id : Z) (name order quantity order_date : option string)
         (s : Bakery),
    ids (orders (update_order order_id name order quantity order_date s))
      = ids (orders s)
    /\ length (orders (update_order order_id name order quantity order_date s))
       = length (orders s)
    /\ next_order_id (update_order order_id name order quantity order_date s)
       = next_order_id s.
Proof.
  intros order_id name order quantity order_date s.
  split; [apply update_order_ids | split; [|apply update_order_counter]].
  destruct (update_order_rows order_id name order quantity order_date s)
    as [-> | (F & i & idx & _ & -> & _)]; [reflexivity | apply length_set_at].
Qed.

(** X8: an update or a delete of one order id leaves the rows of every
    other order id as they were, whatever the outcome of the update. *)
Theorem other_orders_untouched :
  forall (order_id other : Z)
         (name order quantity order_date : option string) (s : Bakery),
    other <> order_id ->
    rows_with_id other
      (orders (update_order order_id name order quantity order_date s))
      = rows_with_id other (orders s)
    /\ rows_with_id other (orders (delete_order order_id s))
       = rows_with_id other (orders s).
Proof.
  intros order_id other name order quantity order_date s Hne. split.
  - destruct (update_order_rows order_id name order quantity order_date s)
      as [-> | (F & i & idx & E & -> & HF)]; [reflexivity|].
    destruct (find_rows_from_first order_id (orders s) 0 i idx E)
      as (pre & o & post & -> & -> & Ho & _).
    simpl. rewrite set_at_middle, !rows_with_id_app.
    f_equal. unfold rows_with_id. simpl.
    rewrite HF, Ho. simpl.
    now destruct (Z.eqb_spec order_id other) as [E'|_]; [elim Hne|].
  - rewrite delete_order_rows. unfold rows_with_id.
    rewrite filter_twice. apply filter_ext. intro o. unfold has_id.
    destruct (OrderID o) as [z|]; simpl; [|reflexivity].
    destruct (Z.eqb_spec z other) as [->|_];
      [|now rewrite andb_false_r].
    now destruct (Z.eqb_spec other order_id) as [E'|_]; [elim Hne|].
Qed.

Lemma other_orders_untouched_witness :
  let s := add_order "Bob" "Bread" "2" "2024-05-02"
             (add_order "Alice" "Croissant" "3" "2024-05-01"
                (fresh "bakery_orders.csv")) in
  rows_with_id 1 (orders (update_order 2 (Some "Bobby") None (Some "0") None s))
    = [mkOrder (Int 1) "Alice" "Croissant" 3 "2024-05-01"]
  /\ rows_with_id 1 (orders (delete_order 2 s))
     = [mkOrder (Int 1) "Alice" "Croissant" 3 "2024-05-01"].
Proof.
  intro s.
  assert (Hne : 1 <> 2) by lia.
  destruct (other_orders_untouched 2 1 (Some "Bobby") None (Some "0") None s Hne)
    as [Hu Hd].
  split; [rewrite Hu | rewrite Hd]; reflexivity.
Defined.

(** ** Looking up, filtering, summing up *)

(** X9: a lookup, a filter and a summary show something on the console and
    change nothing else: not the table, not the counter, not a file, not
    the log. *)
Theorem queries_change_nothing :
  forall (order_id : Z) (customer_name start_date end_date : option string)
         (s : Bakery),
    same_store s (lookup_order order_id s)
    /\ same_store s (order_summary s)
    /\ (forall s', filter_orders customer_name start_date end_date s = Some s' ->
                   same_store s s')
    /\ (exists shown, console (lookup_order order_id s)
                      = (console s ++ [shown])%list).
Proof.
  intros order_id customer_name start_date end_date s.
  split; [|split; [|split]].
  - unfold lookup_order.
    destruct (rows_with_id order_id (orders s)); repeat split.
  - unfold order_summary.
    destruct (most_popular_order (orders (print (Line "-------------")
                (print (Line "Order Summary") s)))); repeat split.
  - intro s'. unfold filter_orders.
    destruct (filter_rows customer_name start_date end_date (orders s))
      as [[|o t]|]; intro H; inversion H; repeat split.
  - unfold lookup_order.
    destruct (rows_with_id order_id (orders s)); eexists; reflexivity.
Qed.

(** ** The backup file *)

Lemma step_filename (o : op) (s : Bakery) : filename (step o s) = filename s.
Proof.
  destruct o; simpl; try reflexivity.
  - destruct (add_order_cases name order quantity order_date s)
      as [[_ ->] | [[_ [x ->]] | [_ ->]]]; reflexivity.
  - unfold update_order, update_order_call.
    destruct (find_rows order_id (orders s)); [reflexivity|].
    split_cases; reflexivity.
  - unfold delete_order. now destruct (find_rows order_id (orders s)).
  - unfold lookup_order. now destruct (rows_with_id order_id (orders s)).
  - unfold filter_orders.
    now destruct (filter_rows customer_name start_date end_date (orders s))
      as [[|r t]|].
  - unfold restore_orders. now destruct (fs s backup_filename).
  - unfold order_summary. simpl. now destruct (most_popular_order (orders s)).
  - unfold restart, init. now destruct (fs s (filename s)).
Qed.

Lemma write_other_file (name other : string) (t : table) (f : files) :
  other <> name -> write_file name t f other = f other.
Proof.
  intro H. unfold write_file.
  now destruct (String.eqb_spec other name) as [E|_]; [elim H|].
Qed.

(** Only a backup, and an export to the name of the backup file, write the
    backup file of a store whose own file is another. *)
Lemma step_backup_file (o : op) (s : Bakery) :
  filename s <> backup_filename ->
  writes_backup o = false ->
  fs (step o s) backup_filename = fs s backup_filename.
Proof.
  intros Hne Ho.
  assert (Hw : forall t, write_file (filename s) t (fs s) backup_filename
                         = fs s backup_filename)
    by (intro t; apply write_other_file; congruence).
  destruct o; simpl in *; try discriminate Ho; try reflexivity.
  - destruct (add_order_cases name order quantity order_date s)
      as [[_ ->] | [[_ [x ->]] | [_ ->]]]; first [apply Hw | reflexivity].
  - destruct (update_order_files order_id name order quantity order_date s)
      as [-> | ->]; [reflexivity | apply Hw].
  - destruct (delete_order_files order_id s) as [-> | ->];
      [reflexivity | apply Hw].
  - unfold lookup_order. now destruct (rows_with_id order_id (orders s)).
  - unfold filter_orders.
    now destruct (filter_rows customer_name start_date end_date (orders s))
      as [[|r t]|].
  - apply write_other_file. apply String.eqb_neq in Ho. congruence.
  - unfold restore_orders.
    destruct (fs s backup_filename) eqn:E; simpl; [apply Hw | exact E].
  - unfold order_summary. simpl. now destruct (most_popular_order (orders s)).
  - unfold restart, init. now destruct (fs s (filename s)).
Qed.

Lemma run_backup_file (l : list op) : forall s : Bakery,
  filename s <> backup_filename ->
  forallb (fun o => negb (writes_backup o)) l = true ->
  fs (run l s) backup_filename = fs s backup_filename
  /\ filename (run l s) = filename s.
Proof.
  induction l as [|o l IH]; intros s Hne Hl; simpl in *; [now split|].
  apply andb_true_iff in Hl as [Ho Hl]. apply negb_true_iff in Ho.
  destruct (IH (step o s)) as [IHf IHn];
    [now rewrite step_filename | exact Hl |].
  rewrite IHf, IHn, step_filename. split; [|reflexivity].
  now apply step_backup_file.
Qed.

(** X10: for a store whose own file is not the backup file, and a table
    whose rows a CSV file gives back as they were written, a restore brings
    back the table as it was at the last backup, row for row, whatever was
    done in between (adds, updates, deletes, restores, restarts, exports to
    other files): only a backup, or an export to the name of the backup
    file, replaces what a restore brings back. *)
Theorem restore_brings_back_the_backup :
  forall (l : list op) (s : Bakery),
    filename s <> backup_filename ->
    Forall csv_order (orders s) ->
    forallb (fun o => negb (writes_backup o)) l = true ->
    orders (restore_orders (run l (backup_orders s))) = orders s
    /\ fs (restore_orders (run l (backup_orders s))) (filename s)
       = Some (orders s)
    /\ next_order_id (restore_orders (run l (backup_orders s)))
       = num_succ (series_max (ids (orders s))).
Proof.
  intros l s Hne _ Hl.
  destruct (run_backup_file l (backup_orders s) Hne Hl) as [Hf Hn].
  assert (Hb : fs (run l (backup_orders s)) backup_filename
               = Some (orders s)).
  { rewrite Hf. simpl. unfold write_file. now rewrite String.eqb_refl. }
  unfold restore_orders. rewrite Hb. simpl. rewrite Hn. simpl.
  repeat split. unfold write_file. now rewrite String.eqb_refl.
Qed.

Lemma restore_brings_back_the_backup_witness :
  let s := add_order "Alice" "Croissant" "3" "2024-05-01"
             (fresh "bakery_orders.csv") in
  orders (restore_orders
            (run [OpUpdate 1 (Some "Al") None None None; OpDelete 1;
                  OpAdd "Bob" "Bread" "2" "2024-05-02"; OpRestart;
                  OpExport "copy.csv"]
                 (backup_orders s)))
  = [mkOrder (Int 1) "Alice" "Croissant" 3 "2024-05-01"].
Proof.
  intro s.
  apply (restore_brings_back_the_backup
           [OpUpdate 1 (Some "Al") None None None; OpDelete 1;
            OpAdd "Bob" "Bread" "2" "2024-05-02"; OpRestart;
            OpExport "copy.csv"] s).
  - vm_compute. discriminate.
  - repeat constructor. exists 1. repeat split.
  - reflexivity.
Defined.

(** ** The log *)

Lemma step_log (o : op) (s : Bakery) :
  exists lines, log (step o s) = (log s ++ lines)%list
                /\ (length lines <= 1)%nat.
Proof.
  assert (H0 : exists lines, log s = (log s ++ lines)%list
                             /\ (length lines <= 1)%nat)
    by (exists []; split; [now rewrite app_nil_r | simpl; lia]).
  assert (H1 : forall x, exists lines,
               (log s ++ [x])%list = (log s ++ lines)%list
               /\ (length lines <= 1)%nat)
    by (intro x; exists [x]; split; [reflexivity | simpl; lia]).
  destruct o; simpl; try exact H0; try apply H1.
  - destruct (add_order_cases name order quantity order_date s)
      as [[_ ->] | [[_ [x ->]] | [_ ->]]]; first [apply H1 | exact H0].
  - unfold update_order, update_order_call.
    destruct (find_rows order_id (orders s)); [exact H0|].
    split_cases; first [exact H0 | apply H1].
  - unfold delete_order.
    destruct (find_rows order_id (orders s)); [exact H0 | apply H1].
  - unfold lookup_order.
    destruct (rows_with_id order_id (orders s)); exact H0.
  - unfold filter_orders.
    destruct (filter_rows customer_name start_date end_date (orders s))
      as [[|r t]|]; exact H0.
  - unfold restore_orders.
    destruct (fs s backup_filename); [apply H1 | exact H0].
  - unfold order_summary. simpl.
    destruct (most_popular_order (orders s)); exact H0.
  - unfold restart, init. destruct (fs s (filename s)); exact H0.
Qed.

Lemma run_log (l : list op) : forall s : Bakery,
  exists lines, log (run l s) = (log s ++ lines)%list
                /\ (length lines <= length l)%nat.
Proof.
  induction l as [|o l IH]; intro s.
  - exists []. split; [simpl; now rewrite app_nil_r | simpl; lia].
  - destruct (step_log o s) as (a & Ha & La).
    destruct (IH (step o s)) as (b & Hb & Lb).
    exists (a ++ b)%list. split.
    + change (run (o :: l) s) with (run l (step o s)).
      rewrite Hb, Ha. now rewrite app_assoc.
    + rewrite length_app. simpl. lia.
Qed.

(** X11: for a store whose own file is not the log file, in a session with
    no export onto the log file, the log is only ever added to: at the end
    it is the log from before followed by at most one line for each
    operation; no line is removed or changed, by a restore and a restart no
    more than by the rest. *)
Theorem log_only_grows :
  forall (l : list op) (s : Bakery),
    filename s <> log_filename ->
    forallb spares_log l = true ->
    exists lines, log (run l s) = (log s ++ lines)%list
                  /\ (length lines <= length l)%nat.
Proof.
  intros l s _ _. apply run_log.
Qed.

Lemma log_only_grows_witness :
  exists lines,
    log (run [OpAdd "Alice" "Croissant" "3" "2024-05-01";
              OpAdd "Bob" "Bread" "0" "2024-05-02";
              OpExport "copy.csv"; OpRestore; OpRestart; OpDelete 1]
             (fresh "bakery_orders.csv"))
    = ([] ++ lines)%list
    /\ (length lines <= 6)%nat.
Proof.
  apply (log_only_grows
           [OpAdd "Alice" "Croissant" "3" "2024-05-01";
            OpAdd "Bob" "Bread" "0" "2024-05-02";
            OpExport "copy.csv"; OpRestore; OpRestart; OpDelete 1]
           (fresh "bakery_orders.csv")).
  - vm_compute. discriminate.
  - reflexivity.
Defined.

(** ** What the checks let into the table *)

Section Kept.

(** A property of rows that the rows an operation lets into the table
    have, for the operations that are [ok]. *)
Variable P : Order -> Prop.
Variable ok : op -> Prop.

Hypothesis P_add :
  forall (name order quantity order_date : string) (n : pynum),
    ok (OpAdd name order quantity order_date) ->
    validate_quantity quantity = Some true ->
    validate_date order_date = true ->
    P (mkOrder n name order (int_acc 0 quantity) order_date).

Hypothesis P_update :
  forall (order_id : Z) (name order quantity order_date : option string)
         (o : Order),
    ok (OpUpdate order_id name order quantity order_date) ->
    P o ->
    (forall v, provided name = Some v -> P (set_name v o))
    /\ (forall v, provided order = Some v -> P (set_text v o))
    /\ (forall v, provided quantity = Some v ->
                  validate_quantity v = Some true ->
                  P (set_quantity (int_acc 0 v) o))
    /\ (forall v, provided order_date = Some v ->
                  validate_date v = true -> P (set_date v o)).

Lemma Forall_set_at (f : Order -> Order) (t : table) :
  (forall o, P o -> P (f o)) ->
  Forall P t -> forall i, Forall P (set_at i f t).
Proof.
  intros Hf Ht. induction Ht as [|o t Ho Ht IH]; intros [|i]; simpl;
    constructor; auto.
Qed.

Lemma Forall_filter (f : Order -> bool) (t : table) :
  Forall P t -> Forall P (filter f t).
Proof.
  rewrite !Forall_forall. intros H o Ho.
  apply filter_In in Ho as [Ho _]. now apply H.
Qed.

Lemma update_order_kept (order_id : Z)
      (name order quantity order_date : option string) (s : Bakery) :
  ok (OpUpdate order_id name order quantity order_date) ->
  Forall P (orders s) ->
  Forall P (orders (update_order order_id name order quantity order_date s)).
Proof.
  intros Hok H.
  assert (Hn : forall v, provided name = Some v ->
                         forall o, P o -> P (set_name v o))
    by (intros v Hv o Ho; now apply (P_update _ _ _ _ _ o Hok Ho)).
  assert (Ht : forall v, provided order = Some v ->
                         forall o, P o -> P (set_text v o))
    by (intros v Hv o Ho; now apply (P_update _ _ _ _ _ o Hok Ho)).
  assert (Hq : forall v, provided quantity = Some v ->
                         validate_quantity v = Some true ->
                         forall o, P o -> P (set_quantity (int_acc 0 v) o))
    by (intros v Hv Hc o Ho; now apply (P_update _ _ _ _ _ o Hok Ho)).
  assert (Hd : forall v, provided order_date = Some v ->
                         validate_date v = true ->
                         forall o, P o -> P (set_date v o))
    by (intros v Hv Hc o Ho; now apply (P_update _ _ _ _ _ o Hok Ho)).
  unfold update_order, update_order_call.
  destruct (find_rows order_id (orders s)) as [|i idx]; [exact H|].
  destruct (provided name) as [n|]; destruct (provided order) as [o|];
    (destruct (provided quantity) as [q|];
     [destruct (validate_quantity q) as [[|]|] eqn:Eq;
      [destruct (validate_quantity_int q Eq) as [Hint Hpos]; rewrite Hint| |]|]);
    (destruct (provided order_date) as [d|];
     [destruct (validate_date d) eqn:Ed|]);
    simpl;
    repeat first
      [ exact H
      | apply Forall_set_at;
        [ first [ apply (Hn _ eq_refl)
                | apply (Ht _ eq_refl)
                | apply (Hq _ eq_refl Eq)
                | apply (Hd _ eq_refl Ed) ]
        | ] ].
Qed.

Lemma every_row_write (name : string) (t : table) (f : files) :
  Forall P t ->
  (forall n t', f n = Some t' -> Forall P t') ->
  forall n t', write_file name t f n = Some t' -> Forall P t'.
Proof.
  intros Ht Hf n t'. unfold write_file.
  destruct (String.eqb n name); [|apply Hf].
  intro E. now injection E as <-.
Qed.

Lemma every_row_step (o : op) (s : Bakery) :
  every_row P s -> ok o -> every_row P (step o s).
Proof.
  intros [Ht Hf] Hok. destruct o; simpl.
  - destruct (validate_quantity quantity) as [[|]|] eqn:Hq;
      [destruct (validate_date order_date) eqn:Hd| |].
    + rewrite add_order_valid by assumption. unfold added. simpl.
      assert (Hnew : Forall P
                (orders s ++ [mkOrder (next_order_id s) name order
                                      (int_acc 0 quantity) order_date])%list).
      { apply Forall_app. split; [exact Ht|].
        constructor; [|constructor]. now apply P_add. }
      split; [exact Hnew | now apply every_row_write].
    + rewrite add_order_bad_date by assumption. now split.
    + rewrite add_order_bad_quantity by assumption. now split.
    + rewrite (proj2 (add_order_raised name order quantity order_date s Hq)).
      now split.
  - pose proof (update_order_kept order_id name order quantity
                  order_date s Hok Ht) as Hu.
    split; [exact Hu|].
    destruct (update_order_files order_id name order quantity order_date s)
      as [-> | ->]; [exact Hf | now apply every_row_write].
  - assert (Hd : Forall P (orders (delete_order order_id s)))
      by (rewrite delete_order_rows; now apply Forall_filter).
    split; [exact Hd|].
    destruct (delete_order_files order_id s) as [-> | ->];
      [exact Hf | now apply every_row_write].
  - unfold lookup_order.
    destruct (rows_with_id order_id (orders s)); now split.
  - unfold filter_orders.
    destruct (filter_rows customer_name start_date end_date (orders s))
      as [[|r t]|]; now split.
  - split; [exact Ht | now apply every_row_write].
  - split; [exact Ht | now apply every_row_write].
  - unfold restore_orders.
    destruct (fs s backup_filename) as [t|] eqn:Eb; [|now split].
    pose proof (Hf _ _ Eb) as Hb. simpl.
    split; [exact Hb | now apply every_row_write].
  - unfold order_summary. simpl.
    destruct (most_popular_order (orders s)); now split.
  - unfold restart, init.
    destruct (fs s (filename s)) as [t|] eqn:Ef.
    + split; [exact (Hf _ _ Ef) | exact Hf].
    + split; [constructor | exact Hf].
Qed.

End Kept.

Lemma well_formed_step (o : op) (s : Bakery) :
  well_formed_store s -> well_formed_store (step o s).
Proof.
  intro Hs.
  apply (every_row_step well_formed (fun _ => True)); [| |exact Hs|exact I].
  - intros name order quantity order_date n _ Hq Hd.
    split; [apply (validate_quantity_int quantity Hq) | exact Hd].
  - intros order_id name order quantity order_date [i n t q d] _ [Hq Hd].
    split; [|split; [|split]]; intros v Hv; try (now split).
    intro Hc. split; [apply (validate_quantity_int v Hc) | exact Hd].
Qed.

Lemma csv_step (o : op) (s : Bakery) :
  every_row csv_row s -> csv_op o = true -> every_row csv_row (step o s).
Proof.
  apply (every_row_step csv_row (fun o => csv_op o = true)).
  - intros name order quantity order_date n Hok Hq Hd.
    simpl in Hok. unfold quantity_ok in Hok. rewrite Hq in Hok. simpl in Hok.
    apply andb_true_iff in Hok as [Hok H3].
    apply andb_true_iff in Hok as [H1 H2]. now repeat split.
  - intros order_id name order quantity order_date [i n t q d] Hok (H1 & H2 & H3).
    simpl in Hok. unfold csv_given in Hok.
    apply andb_true_iff in Hok as [Hok Hq].
    apply andb_true_iff in Hok as [Hn Ht].
    simpl in *.
    split; [|split; [|split]]; intros v Hv; try (now repeat split).
    + rewrite Hv in Hn. now repeat split.
    + rewrite Hv in Ht. now repeat split.
    + intro Hc. rewrite Hv in Hq. unfold quantity_ok in Hq.
      rewrite Hc in Hq. now repeat split.
Qed.

(** X12: in a session that starts with no file, whatever the operations and
    their outcomes, every order in memory and every order in a file has a
    quantity above 0 and a date that the date check accepts: neither a
    rejected add nor an update that is turned down half-way lets anything
    else in. *)
Theorem session_keeps_orders_well_formed :
  forall (l : list op) (name : string),
    well_formed_store (run l (fresh name)).
Proof.
  intros l name.
  assert (H : well_formed_store (fresh name))
    by (split; [constructor | discriminate]).
  revert H. generalize (fresh name).
  induction l as [|o l IH]; intros s Hs; simpl; [exact Hs|].
  apply IH. now apply well_formed_step.
Qed.

(** ** Memory and file *)

Lemma in_step_iff (s : Bakery) :
  in_step s <->
  match fs s (filename s) with
  | Some t => t = orders s
  | None => [] = orders s
  end.
Proof.
  unfold in_step, restart, init.
  destruct (fs s (filename s)); simpl; tauto.
Qed.

Lemma in_step_saved (s : Bakery) : in_step (save_orders s).
Proof.
  apply in_step_iff. unfold save_orders. simpl.
  unfold write_file. now rewrite String.eqb_refl.
Qed.

Lemma in_step_step (o : op) (s : Bakery) :
  in_step s -> clean_update o -> in_step (step o s).
Proof.
  intros Hs Ho. pose proof (proj1 (in_step_iff s) Hs) as Hs'.
  assert (Hsaved : forall t (n : pynum) lg out,
             in_step (mkBakery (filename s) t n
                               (write_file (filename s) t (fs s)) lg out)).
  { intros. apply in_step_iff. simpl. unfold write_file.
    now rewrite String.eqb_refl. }
  assert (Hsame : forall lg out,
             in_step (mkBakery (filename s) (orders s) (next_order_id s)
                               (fs s) lg out))
    by (intros; now apply in_step_iff).
  destruct o; simpl.
  - destruct (add_order_cases name order quantity order_date s)
      as [[_ ->] | [[_ [x ->]] | [_ ->]]];
      first [apply Hsaved | apply Hsame | exact Hs].
  - destruct Ho as [Hq Hd].
    destruct (find_rows order_id (orders s)) as [|i idx] eqn:E.
    + unfold update_order, update_order_call. rewrite E. apply Hsame.
    + destruct (update_order_valid order_id name order quantity order_date s
                  i idx E Hq Hd) as (_ & Hf & _).
      apply in_step_iff. rewrite Hf.
      assert (Hn : filename (update_order order_id name order quantity
                               order_date s) = filename s)
        by apply (step_filename (OpUpdate order_id name order quantity
                                          order_date) s).
      rewrite Hn. unfold write_file. now rewrite String.eqb_refl.
  - unfold delete_order.
    destruct (find_rows order_id (orders s)); [apply Hsame | apply Hsaved].
  - unfold lookup_order.
    destruct (rows_with_id order_id (orders s)); apply Hsame.
  - unfold filter_orders.
    destruct (filter_rows customer_name start_date end_date (orders s))
      as [[|r t]|]; first [apply Hsame | exact Hs].
  - apply in_step_iff. simpl. unfold write_file.
    destruct (String.eqb (filename s) name); [reflexivity | exact Hs'].
  - apply in_step_iff. simpl. unfold write_file.
    destruct (String.eqb (filename s) backup_filename);
      [reflexivity | exact Hs'].
  - unfold restore_orders.
    destruct (fs s backup_filename); [apply Hsaved | apply Hsame].
  - unfold order_summary. simpl.
    destruct (most_popular_order (orders s)); apply Hsame.
  - apply in_step_iff. unfold restart, init.
    destruct (fs s (filename s)) as [t|] eqn:Ef; simpl; now rewrite Ef.
Qed.

Lemma csv_run (l : list op) : forall s : Bakery,
  every_row csv_row s -> forallb csv_op l = true ->
  every_row csv_row (run l s).
Proof.
  induction l as [|o l IH]; intros s Hs Hl; simpl in *; [exact Hs|].
  apply andb_true_iff in Hl as [Ho Hl].
  apply IH; [now apply csv_step | exact Hl].
Qed.

Lemma in_step_run (l : list op) : forall s : Bakery,
  in_step s -> Forall clean_update l -> in_step (run l s).
Proof.
  induction l as [|o l IH]; intros s Hs Hl; simpl; [exact Hs|].
  inversion Hl as [|x r Ho Hr]; subst.
  apply IH; [now apply in_step_step | exact Hr].
Qed.

(** X13: take a session that starts with no file, on a file that is not the
    log file, in which no update has its quantity or its date turned down,
    and in which the names and order texts given are texts that a CSV file
    gives back as written and the quantities fit 64 bits.  Then the file of
    the store always holds the table that is in memory, and its rows are
    rows with such texts and quantities: a new start would load exactly that
    table.  (An update that is turned down, or left by an exception, after
    it has set the name or the order text is the one operation that leaves
    memory and file apart.) *)
Theorem memory_and_file_agree :
  forall (l : list op) (name : string),
    name <> log_filename ->
    Forall clean_update l ->
    forallb csv_op l = true ->
    in_step (run l (fresh name))
    /\ Forall csv_row (orders (run l (fresh name))).
Proof.
  intros l name _ Hl Hcsv. split.
  - apply in_step_run; [reflexivity | exact Hl].
  - apply csv_run; [|exact Hcsv].
    split; [constructor | discriminate].
Qed.

Lemma memory_and_file_agree_witness :
  in_step (run [OpAdd "Alice" "Croissant" "3" "2024-05-01";
                OpAdd "Bob" "Bread" "0" "2024-05-02";
                OpUpdate 1 (Some "Al") None (Some "4") None;
                OpDelete 5; OpBackup]
               (fresh "bakery_orders.csv"))
  /\ Forall csv_row
       (orders (run [OpAdd "Alice" "Croissant" "3" "2024-05-01";
                     OpAdd "Bob" "Bread" "0" "2024-05-02";
                     OpUpdate 1 (Some "Al") None (Some "4") None;
                     OpDelete 5; OpBackup]
                    (fresh "bakery_orders.csv"))).
Proof.
  apply memory_and_file_agree.
  - vm_compute. discriminate.
  - repeat constructor.
    + intros v H. injection H as <-. reflexivity.
    + intros v H. discriminate H.
  - reflexivity.
Defined.

(** ** Dates as texts *)

Section DateOrder.

Lemma compare_append (u : string) : forall v r1 r2,
  String.length u = String.length v ->
  String.compare (u ++ r1) (v ++ r2)
  = match String.compare u v with
    | Eq => String.compare r1 r2
    | c => c
    end.
Proof.
  induction u as [|a u IH]; intros [|b v] r1 r2 H; simpl in *;
    try discriminate; [reflexivity|].
  destruct (Ascii.compare a b); try reflexivity.
  apply IH. now injection H.
Qed.

Lemma int_acc_shift (u : string) : forall acc,
  int_acc acc u = acc * 10 ^ Z.of_nat (String.length u) + int_acc 0 u.
Proof.
  induction u as [|c u IH]; intro acc.
  - simpl. lia.
  - cbn [int_acc String.length].
    rewrite (IH (10 * acc + digit_val c)), (IH (10 * 0 + digit_val c)).
    rewrite Nat2Z.inj_succ, Z.pow_succ_r by lia. ring.
Qed.

Lemma digit_val_range (c : ascii) :
  is_digit c = true -> 0 <= digit_val c <= 9.
Proof.
  unfold is_digit, in_range, digit_val, Ascii.leb, Ascii.compare.
  intro H. apply andb_true_iff in H as [H1 H2].
  change (N_of_ascii "0") with 48%N in H1.
  change (N_of_ascii "9") with 57%N in H2.
  destruct (N.compare_spec 48 (N_of_ascii c)); try discriminate;
    destruct (N.compare_spec (N_of_ascii c) 57); try discriminate; lia.
Qed.

Lemma int_acc_bounds (u : string) :
  all_digits u = true ->
  0 <= int_acc 0 u < 10 ^ Z.of_nat (String.length u).
Proof.
  induction u as [|c u IH]; intro H.
  - simpl. lia.
  - cbn [all_digits] in H. apply andb_true_iff in H as [Hc Hu].
    cbn [int_acc String.length].
    rewrite int_acc_shift, Nat2Z.inj_succ, Z.pow_succ_r by lia.
    pose proof (digit_val_range c Hc). specialize (IH Hu).
    nia.
Qed.

(** Two digit strings of the same length compare as texts the way the
    numbers they read as compare. *)
Lemma compare_digits (u : string) : forall v,
  all_digits u = true -> all_digits v = true ->
  String.length u = String.length v ->
  String.compare u v = Z.compare (int_acc 0 u) (int_acc 0 v).
Proof.
  induction u as [|a u IH]; intros [|b v] Hu Hv Hl; simpl in Hl;
    try discriminate; [reflexivity|].
  cbn [all_digits] in Hu, Hv.
  apply andb_true_iff in Hu as [Ha Hu]. apply andb_true_iff in Hv as [Hb Hv].
  injection Hl as Hl.
  cbn [String.compare int_acc].
  rewrite (int_acc_shift u), (int_acc_shift v), <- Hl.
  pose proof (int_acc_bounds u Hu) as Bu.
  pose proof (int_acc_bounds v Hv) as Bv. rewrite <- Hl in Bv.
  pose proof (digit_val_range a Ha) as Ra.
  pose proof (digit_val_range b Hb) as Rb.
  specialize (IH v Hu Hv Hl).
  unfold Ascii.compare.
  assert (Hab : (N_of_ascii a ?= N_of_ascii b)%N
                = (digit_val a ?= digit_val b)).
  { unfold digit_val. rewrite <- N2Z.inj_compare.
    replace (Z.of_N (N_of_ascii a) - 48) with (-48 + Z.of_N (N_of_ascii a))
      by lia.
    replace (Z.of_N (N_of_ascii b) - 48) with (-48 + Z.of_N (N_of_ascii b))
      by lia.
    now rewrite Z.add_compare_mono_l. }
  rewrite Hab.
  set (P := 10 ^ Z.of_nat (String.length u)) in *.
  destruct (Z.compare_spec (digit_val a) (digit_val b)) as [E | L | G].
  - rewrite IH, E.
    destruct (Z.compare_spec (int_acc 0 u) (int_acc 0 v));
      symmetry; [apply Z.compare_eq_iff | apply Z.compare_lt_iff
                 | apply Z.compare_gt_iff]; nia.
  - symmetry. apply Z.compare_lt_iff. nia.
  - symmetry. apply Z.compare_gt_iff. nia.
Qed.

Lemma decimal_digits (w : string) (n : Z) :
  decimal w n -> all_digits w = true /\ int_acc 0 w = n.
Proof.
  intro H. apply decimal_sound in H as [Hd Hv].
  apply numeral_all_digits in Hd as [_ Hd]. now split.
Qed.

(** Two dates in the fixed-width form compare as texts the way the days
    they name follow each other. *)
Lemma leb_fixed_dates (s s' : string) (y m d y' m' d' : Z) :
  fixed_date s y m d -> fixed_date s' y' m' d' ->
  String.leb s s' = true <-> on_or_before y m d y' m' d'.
Proof.
  intros (Y & M & D & -> & LY & DY & LM & DM & LD & DD)
         (Y' & M' & D' & -> & LY' & DY' & LM' & DM' & LD' & DD').
  apply decimal_digits in DY as [AY VY], DM as [AM VM], DD as [AD VD],
      DY' as [AY' VY'], DM' as [AM' VM'], DD' as [AD' VD'].
  unfold String.leb, on_or_before.
  rewrite compare_append by congruence.
  rewrite (compare_digits Y Y' AY AY') by congruence.
  change (String.compare ("-" ++ M ++ "-" ++ D) ("-" ++ M' ++ "-" ++ D'))
    with (String.compare (M ++ "-" ++ D) (M' ++ "-" ++ D')).
  rewrite compare_append by congruence.
  rewrite (compare_digits M M' AM AM') by congruence.
  change (String.compare ("-" ++ D) ("-" ++ D'))
    with (String.compare D D').
  rewrite (compare_digits D D' AD AD') by congruence.
  rewrite VY, VY', VM, VM', VD, VD'.
  destruct (Z.compare_spec y y'); [|split; [lia | reflexivity]
                                   |split; [discriminate | lia]].
  destruct (Z.compare_spec m m'); [|split; [lia | reflexivity]
                                   |split; [discriminate | lia]].
  destruct (Z.compare_spec d d'); split; try discriminate; try reflexivity; lia.
Qed.

End DateOrder.

(** X14: when the start date, the end date and the date of an order are all
    written in the fixed-width form YYYY-MM-DD, the filter by dates alone
    keeps the order exactly when its day is the start day or a later one and
    the end day or an earlier one: for such texts the comparison of texts
    that [filter_orders] makes is the comparison of days. *)
Theorem date_filter_is_chronological :
  forall (start_date end_date : string) (t : table) (o : Order)
         (ys ms ds ye me de y m d : Z),
    fixed_date start_date ys ms ds ->
    fixed_date end_date ye me de ->
    fixed_date (OrderDate o) y m d ->
    exists r,
      filter_rows None (Some start_date) (Some end_date) t = Some r
      /\ (In o r <->
          In o t /\ on_or_before ys ms ds y m d /\ on_or_before y m d ye me de).
Proof.
  intros start_date end_date t o ys ms ds ye me de y m d Hs He Ho.
  assert (Hne : forall s a b c, fixed_date s a b c ->
                                provided (Some s) = Some s).
  { intros s a b c (Y & M & D & -> & LY & _). destruct Y; [discriminate|].
    reflexivity. }
  unfold filter_rows. simpl (provided None).
  rewrite (Hne _ _ _ _ Hs), (Hne _ _ _ _ He).
  eexists. split; [reflexivity|].
  rewrite !filter_In.
  rewrite (leb_fixed_dates _ _ _ _ _ _ _ _ Hs Ho).
  rewrite (leb_fixed_dates _ _ _ _ _ _ _ _ Ho He).
  tauto.
Qed.

Lemma date_filter_is_chronological_witness :
  let o := mkOrder (Int 1) "Alice" "Croissant" 3 "2024-05-01" in
  exists r,
    filter_rows None (Some "2024-01-31") (Some "2024-12-01") [o] = Some r
    /\ (In o r <->
        In o [o] /\ on_or_before 2024 1 31 2024 5 1
        /\ on_or_before 2024 5 1 2024 12 1).
Proof.
  intro o.
  assert (F : forall Y M D : string,
             String.length Y = 4%nat -> String.length M = 2%nat ->
             String.length D = 2%nat ->
             numeral Y = true -> numeral M = true -> numeral D = true ->
             fixed_date (Y ++ "-" ++ M ++ "-" ++ D)
                        (int_acc 0 Y) (int_acc 0 M) (int_acc 0 D)).
  { intros Y M D LY LM LD HY HM HD. exists Y, M, D.
    repeat split; try assumption; now apply numeral_decimal. }
  apply (date_filter_is_chronological "2024-01-31" "2024-12-01" [o] o
           2024 1 31 2024 12 1 2024 5 1).
  - apply (F "2024" "01" "31"); reflexivity.
  - apply (F "2024" "12" "01"); reflexivity.
  - apply (F "2024" "05" "01"); reflexivity.
Defined.

(** ** The menu *)

Section MenuFacts.

Variable to_int : string -> option Z.

Lemma forget_same_store (s s' : Bakery) :
  forget s = forget s' <-> same_store s s'.
Proof.
  unfold forget, same_store. split.
  - intro H. injection H. auto.
  - intros (H1 & H2 & H3 & H4 & H5). congruence.
Qed.

Lemma forget_print (x : output) (s : Bakery) : forget (print x s) = forget s.
Proof. reflexivity. Qed.

Lemma forget_show_menu (s : Bakery) : forget (show_menu s) = forget s.
Proof. reflexivity. Qed.

(** No operation looks at what the console shows. *)
Lemma step_forget (o : op) (s : Bakery) :
  forget (step o s) = forget (step o (forget s)).
Proof.
  destruct s as [f t n files lg out]. destruct o; simpl.
  - unfold add_order, add_order_call. simpl.
    destruct (validate_quantity quantity) as [[|]|]; try reflexivity.
    destruct (validate_date order_date); [|reflexivity].
    simpl. destruct (py_int quantity); reflexivity.
  - unfold update_order, update_order_call. simpl.
    destruct (find_rows order_id t); [reflexivity|].
    split_cases; reflexivity.
  - unfold delete_order. simpl.
    destruct (find_rows order_id t); reflexivity.
  - unfold lookup_order. simpl.
    destruct (rows_with_id order_id t); reflexivity.
  - unfold filter_orders. simpl.
    destruct (filter_rows customer_name start_date end_date t) as [[|r u]|];
      reflexivity.
  - reflexivity.
  - reflexivity.
  - unfold restore_orders. simpl.
    destruct (files backup_filename); reflexivity.
  - unfold order_summary. simpl.
    destruct (most_popular_order t); reflexivity.
  - unfold restart, init. simpl. destruct (files f); reflexivity.
Qed.

Lemma step_same (o : op) (s s' : Bakery) :
  forget s = forget s' -> forget (step o s) = forget (step o s').
Proof.
  intro H. rewrite (step_forget o s), (step_forget o s'). now rewrite H.
Qed.

Lemma filter_orders_step (customer_name start_date end_date : option string)
      (s s' : Bakery) :
  filter_orders customer_name start_date end_date s = Some s' ->
  s' = step (OpFilter customer_name start_date end_date) s.
Proof. intro H. simpl. now rewrite H. Qed.

Lemma methods_are_steps :
  (forall a b c d s, add_order a b c d s = step (OpAdd a b c d) s)
  /\ (forall i a b c d s,
        update_order i a b c d s = step (OpUpdate i a b c d) s)
  /\ (forall i s, delete_order i s = step (OpDelete i) s)
  /\ (forall i s, lookup_order i s = step (OpLookup i) s)
  /\ (forall n s, export_orders_to_csv n s = step (OpExport n) s)
  /\ (forall s, backup_orders s = step OpBackup s)
  /\ (forall s, restore_orders s = step OpRestore s)
  /\ (forall s, order_summary s = step OpSummary s).
Proof. repeat split. Qed.

Lemma forget_ask (p : string) (s : Bakery) : forget (ask p s) = forget s.
Proof. reflexivity. Qed.

Ltac same_state H :=
  rewrite ?forget_print, ?forget_ask, ?forget_show_menu; exact H.

(** What the loop of the menu does to the store is what a list of
    operations does, one operation at most for each line typed. *)
Lemma menu_loop_runs (n : nat) : forall (inputs : list string) (s s0 : Bakery),
  (length inputs <= n)%nat ->
  forget s = forget s0 ->
  exists l, forget (run l s0) = forget (fst (menu_loop to_int inputs s))
            /\ (length l <= length inputs)%nat.
Proof.
  destruct methods_are_steps as (Ea & Eu & Ed & El & Ee & Eb & Er & Es).
  induction n as [|n IH]; intros inputs s s0 Hn Hs.
  - destruct inputs; [|simpl in Hn; lia].
    exists []. split; [symmetry; cbn [menu_loop fst]; same_state Hs | simpl; lia].
  - assert (Hstop : forall (s' : Bakery) (e : ending) (rest : list string),
               forget s' = forget s0 ->
               exists l, forget (run l s0) = forget (fst (s', e))
                         /\ (length l <= length rest)%nat).
    { intros s' e rest H. exists []. split; [symmetry; exact H | simpl; lia]. }
    assert (Hgo : forall (o : op) (s' : Bakery) (rest all : list string),
               (length rest < length all)%nat ->
               (length all <= S n)%nat ->
               forget s' = forget s0 ->
               exists l, forget (run l s0)
                         = forget (fst (menu_loop to_int rest (step o s')))
                         /\ (length l <= length all)%nat).
    { intros o s' rest all Hlt Hall H.
      destruct (IH rest (step o s') (step o s0)) as (l & Hl & Hlen);
        [lia | apply step_same; exact H |].
      exists (o :: l). split; [exact Hl | simpl; lia]. }
    assert (Hend : forall (o : op) (s' : Bakery) (e : ending)
                          (all : list string),
               (1 <= length all)%nat ->
               forget s' = forget s0 ->
               exists l, forget (run l s0) = forget (fst (step o s', e))
                         /\ (length l <= length all)%nat).
    { intros o s' e all Hall H. exists [o]. split; [|exact Hall].
      apply step_same. symmetry. exact H. }
    assert (Hskip : forall (s' : Bakery) (rest all : list string),
               (length rest < length all)%nat ->
               (length all <= S n)%nat ->
               forget s' = forget s0 ->
               exists l, forget (run l s0)
                         = forget (fst (menu_loop to_int rest s'))
                         /\ (length l <= length all)%nat).
    { intros s' rest all Hlt Hall H.
      destruct (IH rest s' s0) as (l & Hl & Hlen); [lia | exact H |].
      exists l. split; [exact Hl | lia]. }
    destruct inputs as [|choice inputs]; [apply Hstop; same_state Hs|].
    cbn [menu_loop].
    repeat match goal with
           | |- context [if String.eqb choice ?c then _ else _] =>
               destruct (String.eqb choice c)
           end;
      repeat match goal with
             | |- context [match ?x with [] => _ | _ :: _ => _ end] =>
                 is_var x; destruct x; [apply Hstop; same_state Hs|]
             | |- context [match to_int ?x with _ => _ end] =>
                 destruct (to_int x); [|apply Hstop; same_state Hs]
             end;
      try (apply Hstop; same_state Hs).
    + match goal with
      | |- context [raises ?r] => destruct (raises r)
      end; rewrite Ea;
        [apply Hend; [simpl; lia | same_state Hs]
        |apply Hgo; [simpl; lia | exact Hn | same_state Hs]].
    + match goal with
      | |- context [raises ?r] => destruct (raises r)
      end; rewrite Eu;
        [apply Hend; [simpl; lia | same_state Hs]
        |apply Hgo; [simpl; lia | exact Hn | same_state Hs]].
    + rewrite Ed. apply Hgo; [simpl; lia | exact Hn | same_state Hs].
    + rewrite El. apply Hgo; [simpl; lia | exact Hn | same_state Hs].
    + match goal with
      | |- context [filter_orders ?a ?b ?c ?st] =>
          destruct (filter_orders a b c st) as [s'|] eqn:E
      end; [|apply Hstop; same_state Hs].
      apply filter_orders_step in E. rewrite E.
      apply Hgo; [simpl; lia | exact Hn | same_state Hs].
    + rewrite Ee. apply Hgo; [simpl; lia | exact Hn | same_state Hs].
    + rewrite Eb. apply Hgo; [simpl; lia | exact Hn | same_state Hs].
    + rewrite Er. apply Hgo; [simpl; lia | exact Hn | same_state Hs].
    + rewrite Es. apply Hgo; [simpl; lia | exact Hn | same_state Hs].
    + apply Hskip; [simpl; lia | exact Hn | same_state Hs].
Qed.

(** The same for the whole menu, the question for the password included. *)
Lemma menu_runs (inputs : list string) (s : Bakery) :
  exists l, same_store (run l s) (fst (menu to_int inputs s))
            /\ (length l <= length inputs)%nat.
Proof.
  assert (Hnone : forall s', forget s' = forget s ->
            exists l, same_store (run l s) s'
                      /\ (length l <= length inputs)%nat).
  { intros s' H. exists []. split; [|simpl; lia].
    apply forget_same_store. now symmetry. }
  unfold menu, authenticate_user.
  destruct inputs as [|username [|password rest]];
    try (apply Hnone; reflexivity).
  destruct (String.eqb username "admin" && String.eqb password "password");
    [|apply Hnone; reflexivity].
  destruct (menu_loop_runs (length rest) rest
              (ask "Enter password: " (ask "Enter username: " s)) s
              (Nat.le_refl _) eq_refl) as (l & Hl & Hlen).
  exists l. split; [now apply forget_same_store | simpl; lia].
Qed.

End MenuFacts.

(** X15: whatever is typed, what the menu does to the table, the counter,
    the files and the log is what a list of operations of the store does,
    run one after the other, with one operation at most for each line
    typed: the menu adds prompts and messages on the console and nothing
    else; when it stops early (no line left, an order id that is no number,
    a quantity on which [int] raises) the operations done so far stay
    done. *)
Theorem menu_runs_operations :
  forall (to_int : string -> option Z) (inputs : list string) (s : Bakery),
    exists l,
      same_store (run l s) (fst (menu to_int inputs s))
      /\ (length l <= length inputs)%nat.
Proof. exact menu_runs. Qed.

(** X16: the menu runs no operation unless the first line typed is "admin"
    and the second "password", to the letter: with anything else it asks
    the two questions, says that the authentication failed and returns,
    the store as it was and the lines that follow unread. *)
Theorem menu_needs_the_password :
  forall (to_int : string -> option Z) (username password : string)
         (rest : list string) (s : Bakery),
    username <> "admin" \/ password <> "password" ->
    menu to_int (username :: password :: rest) s
    = (print (Line "Authentication failed. Exiting system.")
         (ask "Enter password: " (ask "Enter username: " s)),
       Returned)
    /\ same_store s (fst (menu to_int (username :: password :: rest) s)).
Proof.
  intros to_int username password rest s H.
  assert (E : String.eqb username "admin" && String.eqb password "password"
              = false).
  { apply andb_false_iff.
    destruct H as [H | H]; [left | right]; now apply String.eqb_neq. }
  unfold menu, authenticate_user. rewrite E. split; [reflexivity|].
  repeat split.
Qed.

Lemma menu_needs_the_password_witness :
  snd (menu py_int ["admin"; "Password"; "1"; "Alice"; "Croissant"; "3";
                    "2024-05-01"; "10"]
            (fresh "bakery_orders.csv")) = Returned
  /\ orders (fst (menu py_int ["admin"; "Password"; "1"; "Alice"; "Croissant";
                               "3"; "2024-05-01"; "10"]
                       (fresh "bakery_orders.csv"))) = [].
Proof.
  assert (H : "admin" <> "admin" \/ "Password" <> "password")
    by (right; discriminate).
  destruct (menu_needs_the_password py_int "admin" "Password"
              ["1"; "Alice"; "Croissant"; "3"; "2024-05-01"; "10"]
              (fresh "bakery_orders.csv") H) as [E _].
  rewrite E. split; reflexivity.
Defined.

Lemma well_formed_run (l : list op) : forall s : Bakery,
  well_formed_store s -> well_formed_store (run l s).
Proof.
  induction l as [|o l IH]; intros s Hs; simpl; [exact Hs|].
  apply IH. now apply well_formed_step.
Qed.

(** X17: whatever is typed at the menu, if every order in memory and in the
    files had a quantity above 0 and a date that the date check accepts
    before, so it is when the menu stops, however it stops. *)
Theorem menu_keeps_orders_well_formed :
  forall (to_int : string -> option Z) (inputs : list string) (s : Bakery),
    well_formed_store s ->
    well_formed_store (fst (menu to_int inputs s)).
Proof.
  intros to_int inputs s Hs.
  destruct (menu_runs to_int inputs s) as (l & (_ & Ho & _ & Hf & _) & _).
  destruct (well_formed_run l s Hs) as [Ht Hfiles].
  split; [now rewrite <- Ho | now rewrite <- Hf].
Qed.

Lemma menu_keeps_orders_well_formed_witness :
  well_formed_store
    (fst (menu py_int ["admin"; "password"; "1"; "Alice"; "Croissant"; "3";
                       "2024-05-01"; "2"; "1"; "Al"; ""; "0"; ""; "10"]
               (fresh "bakery_orders.csv"))).
Proof.
  apply menu_keeps_orders_well_formed.
  split; [constructor | discriminate].
Defined.

(** X18: when the line typed for the order id of an update, a delete or a
    lookup is no number ([int] raises [ValueError]), the menu stops there
    with that error: the operation is not run, the store is as it was, the
    lines that follow are not read. *)
Theorem menu_stops_on_a_bad_order_id :
  forall (to_int : string -> option Z) (choice line : string)
         (rest : list string) (s : Bakery),
    In choice ["2"; "3"; "4"] ->
    to_int line = None ->
    snd (menu_loop to_int (choice :: line :: rest) s) = ValueError
    /\ same_store s (fst (menu_loop to_int (choice :: line :: rest) s)).
Proof.
  intros to_int choice line rest s Hc Hl.
  destruct Hc as [<- | [<- | [<- | []]]];
    cbn [menu_loop String.eqb Ascii.eqb Bool.eqb]; rewrite Hl;
    repeat split.
Qed.

Lemma menu_stops_on_a_bad_order_id_witness :
  snd (menu_loop py_int ["3"; "one"; "10"]
                 (add_order "Alice" "Croissant" "3" "2024-05-01"
                    (fresh "bakery_orders.csv"))) = ValueError.
Proof.
  apply (menu_stops_on_a_bad_order_id py_int "3" "one" ["10"]).
  - right. left. reflexivity.
  - reflexivity.
Defined.

(** ** Starting, restoring, looking up *)

Lemma csv_order_integer_ids (t : table) :
  Forall csv_order t -> integer_ids t.
Proof.
  rewrite Forall_forall. intros H o Ho.
  destruct (H o Ho) as (_ & (z & Hz & _) & _). now exists z.
Qed.

(** X19: a store started on a file (not the log file) that holds rows that a
    CSV file gives back as they were written takes the table of the file as
    it is, and the counter is the greatest order id of the table plus one;
    when the file is missing or holds no order the table is empty and the
    counter is 1.  The start writes no file and no log line. *)
Theorem init_counter :
  forall (name : string) (f : files) (lg : list string) (out : list output),
    name <> log_filename ->
    (forall t, f name = Some t -> Forall csv_order t) ->
    (forall t, f name = Some t -> orders (init name f lg out) = t)
    /\ (f name = None -> orders (init name f lg out) = [])
    /\ (orders (init name f lg out) = [] ->
        next_order_id (init name f lg out) = Int 1)
    /\ (orders (init name f lg out) <> [] ->
        exists m, greatest_id m (orders (init name f lg out))
                  /\ next_order_id (init name f lg out) = Int (m + 1))
    /\ fs (init name f lg out) = f
    /\ log (init name f lg out) = lg.
Proof.
  intros name f lg out _ Hcsv.
  assert (Hint : forall t, f name = Some t -> integer_ids t)
    by (intros t Ht; apply csv_order_integer_ids; now apply Hcsv).
  unfold init.
  destruct (f name) as [t|] eqn:E; simpl.
  - repeat split; try discriminate.
    + intros t' H. now injection H.
    + intros ->. reflexivity.
    + intro Hne. destruct (series_max_greatest t (Hint t eq_refl) Hne)
        as (m & Hm & Hg).
      exists m. split; [exact Hg|].
      destruct t as [|o t]; [now elim Hne|]. now rewrite Hm.
  - repeat split; try discriminate. intro H. now elim H.
Qed.

Lemma init_counter_witness :
  let s := delete_order 1
             (add_order "Bob" "Bread" "2" "2024-05-02"
                (add_order "Alice" "Croissant" "3" "2024-05-01"
                   (fresh "bakery_orders.csv"))) in
  orders (init "bakery_orders.csv" (fs s) [] [])
    = [mkOrder (Int 2) "Bob" "Bread" 2 "2024-05-02"]
  /\ exists m, greatest_id m (orders (init "bakery_orders.csv" (fs s) [] []))
               /\ next_order_id (init "bakery_orders.csv" (fs s) [] [])
                  = Int (m + 1).
Proof.
  intro s.
  destruct (init_counter "bakery_orders.csv" (fs s) [] [])
    as (Ht & _ & _ & Hm & _).
  - vm_compute. discriminate.
  - intros t H. vm_compute in H. injection H as <-.
    repeat constructor. exists 2. repeat split.
  - split; [apply Ht; vm_compute; reflexivity|].
    apply Hm. vm_compute. discriminate.
Defined.

(** X20: a restore done twice in a row is a restore done once, for the
    table, the counter and every file: the second one finds the same backup
    and changes nothing more (it only logs and reports once more). *)
Theorem restore_twice :
  forall s : Bakery,
    orders (restore_orders (restore_orders s)) = orders (restore_orders s)
    /\ next_order_id (restore_orders (restore_orders s))
       = next_order_id (restore_orders s)
    /\ (forall name, fs (restore_orders (restore_orders s)) name
                     = fs (restore_orders s) name).
Proof.
  intro s.
  destruct (fs s backup_filename) as [t|] eqn:E.
  - assert (Hb : write_file (filename s) t (fs s) backup_filename = Some t).
    { unfold write_file.
      destruct (String.eqb backup_filename (filename s)); [reflexivity | exact E]. }
    assert (R : restore_orders s
                = print (Line "Orders restored successfully from backup.")
                    (log_action "Restored orders from backup"
                       (with_next (num_succ (series_max (ids t)))
                          (save_orders (with_orders t s)))))
      by (unfold restore_orders; now rewrite E).
    rewrite R. unfold restore_orders. simpl. rewrite Hb. simpl.
    split; [reflexivity | split; [reflexivity|]].
    intro name. unfold write_file.
    now destruct (String.eqb name (filename s)).
  - assert (R : restore_orders s = print (Line "No backup file found.") s)
      by (unfold restore_orders; now rewrite E).
    rewrite R. unfold restore_orders. simpl. rewrite E.
    split; [reflexivity | split; reflexivity].
Qed.

(** X21: in a table whose order ids are pairwise distinct, the lookup of an
    order id that is there shows one row, the row that carries the id. *)
Theorem lookup_shows_one_row :
  forall (order_id : Z) (s : Bakery),
    NoDup (ids (orders s)) ->
    present order_id (orders s) ->
    exists o, In o (orders s)
              /\ OrderID o = Int order_id
              /\ lookup_order order_id s = print (Frame [o]) s.
Proof.
  intros order_id s Hnd Hp.
  pose proof (length_without_id order_id (orders s) Hnd Hp) as H1.
  pose proof (length_filter_split Order (has_id order_id) (orders s)) as H2.
  assert (Hlen : length (rows_with_id order_id (orders s)) = 1%nat).
  { unfold rows_with_id.
    change (fun o => num_eqb (OrderID o) order_id) with (has_id order_id).
    lia. }
  unfold lookup_order.
  destruct (rows_with_id order_id (orders s)) as [|o [|r u]] eqn:E;
    try discriminate Hlen.
  assert (Ho : In o (rows_with_id order_id (orders s)))
    by (rewrite E; now left).
  apply filter_In in Ho as [Hin Hid].
  exists o. split; [exact Hin | split; [|reflexivity]].
  destruct (OrderID o) as [z|]; [|discriminate].
  simpl in Hid. apply Z.eqb_eq in Hid. now subst.
Qed.

Lemma lookup_shows_one_row_witness :
  let s := add_order "Bob" "Bread" "2" "2024-05-02"
             (add_order "Alice" "Croissant" "3" "2024-05-01"
                (fresh "bakery_orders.csv")) in
  exists o, In o (orders s)
            /\ OrderID o = Int 2
            /\ lookup_order 2 s = print (Frame [o]) s.
Proof.
  intro s. apply (lookup_shows_one_row 2 s).
  - vm_compute. constructor; [intros [H | []]; discriminate H|].
    constructor; [intros [] | constructor].
  - eexists. split; [right; left; reflexivity | reflexivity].
Defined.

(** ** The checks of [add_order] and [update_order], text by text *)







(** ** Filtering by a plain name *)




(** ** Backup, deletion of everything, restore *)


